(** * The hidden web: shared chat state and per-connection controller

    A shallow embedding of the Go chat server (the iteration with votes,
    presence counter and selection mode): the package-level state
    ([chatMessages], [userVotes], [onlineUsers]), the functions that mutate
    it ([addMessage], [voteMessage], [incrementUsers], [decrementUsers]) and
    the bubbletea [Update] method of the per-connection [model].

    Locks ([chatMutex], [voteMutex], [usersMutex]) serialise the bodies of
    the functions; each function is modelled as one atomic state
    transformer.  Logging calls ([fmt.Println]) are left out. *)

From Stdlib Require Import ZArith Lia List Bool String Ascii.
From stdpp Require Import gmap strings list fin_maps.

Local Open Scope string_scope.
Local Open Scope Z_scope.

(** ** Go's [int] on a 64-bit platform *)

Module GoInt.

Definition min_int : Z := - 2 ^ 63.
Definition max_int : Z := 2 ^ 63 - 1.

(** Two's complement wrap-around of an unbounded result. *)
Definition wrap (x : Z) : Z := (x + 2 ^ 63) mod 2 ^ 64 - 2 ^ 63.

(** [x++] and [x--]. *)
Definition incr (x : Z) : Z := wrap (x + 1).
Definition decr (x : Z) : Z := wrap (x - 1).
Definition sub (x y : Z) : Z := wrap (x - y).

Definition in_range (x : Z) : Prop := min_int <= x <= max_int.

End GoInt.

(** ** Data model *)

(** [type Message struct]. *)
Record Message : Type := mkMessage {
  Username  : string;
  Timestamp : string;
  PubKey    : string;
  Content   : string;
  Upvotes   : Z;
  Downvotes : Z;
  UniqueID  : string;
  System    : bool
}.

Definition setUpvotes (n : Z) (msg : Message) : Message :=
  mkMessage (Username msg) (Timestamp msg) (PubKey msg) (Content msg)
            n (Downvotes msg) (UniqueID msg) (System msg).

Definition setDownvotes (n : Z) (msg : Message) : Message :=
  mkMessage (Username msg) (Timestamp msg) (PubKey msg) (Content msg)
            (Upvotes msg) n (UniqueID msg) (System msg).

Definition setUniqueID (id : string) (msg : Message) : Message :=
  mkMessage (Username msg) (Timestamp msg) (PubKey msg) (Content msg)
            (Upvotes msg) (Downvotes msg) id (System msg).

(** What the code reads of an [ssh.Session]: [User()] and [PublicKey()]
    (the marshalled key, [None] when the client offered none). *)
Record Session : Type := mkSession {
  User      : string;
  PublicKey : option string
}.

(** The package-level variables.  [userVotes] is
    [map[string]map[string]int]: user name, then message id, then the vote
    type that was last accepted. *)
Record Globals : Type := mkGlobals {
  chatMessages : list Message;
  onlineUsers  : Z;
  userVotes    : gmap string (gmap string Z)
}.

Definition setChatMessages (l : list Message) (g : Globals) : Globals :=
  mkGlobals l (onlineUsers g) (userVotes g).

Definition setOnlineUsers (n : Z) (g : Globals) : Globals :=
  mkGlobals (chatMessages g) n (userVotes g).

Definition setUserVotes (v : gmap string (gmap string Z)) (g : Globals) : Globals :=
  mkGlobals (chatMessages g) (onlineUsers g) v.

(** The state at program start: [make([]Message, 0)], [0], [make(map...)]. *)
Definition emptyGlobals : Globals := mkGlobals [] 0 ∅.

(** [len(s)] of a slice, as an [int]. *)
Definition len {A : Type} (l : list A) : Z := Z.of_nat (length l).

(** [s[i]]: [None] stands for the index-out-of-range panic. *)
Definition index {A : Type} (l : list A) (i : Z) : option A :=
  if i <? 0 then None else l !! Z.to_nat i.

(** Go's [error] values: [None] is [nil], [Some s] is [errors.New(s)]. *)
Definition error : Type := option string.

Definition DuplicateVoteError : string := "you have already voted this way".
Definition MessageNotFoundError : string := "message not found".

(** The two vote types the controller passes. *)
Inductive Direction : Type := Up | Down.

Definition voteTypeOf (d : Direction) : Z :=
  match d with Up => 1 | Down => -1 end.

Definition opposite (d : Direction) : Direction :=
  match d with Up => Down | Down => Up end.

(** ** Presence counter *)

Definition incrementUsers (g : Globals) : Globals :=
  setOnlineUsers (GoInt.incr (onlineUsers g)) g.

Definition decrementUsers (g : Globals) : Globals :=
  if 0 <? onlineUsers g
  then setOnlineUsers (GoInt.decr (onlineUsers g)) g
  else g.

(** ** Votes *)

(** The voter's entry of [userVotes] for a message id ([v, exists := m[k]]). *)
Definition recorded (g : Globals) (username messageID : string) : option Z :=
  userVotes g !! username ≫= λ votes, votes !! messageID.

(** "Remove previous vote if exists". *)
Definition removePreviousVote (prev : option Z) (msg : Message) : Message :=
  match prev with
  | Some prevVote =>
      if 0 <? prevVote then setUpvotes (GoInt.decr (Upvotes msg)) msg
      else if prevVote <? 0 then setDownvotes (GoInt.decr (Downvotes msg)) msg
      else msg
  | None => msg
  end.

(** "Add new vote". *)
Definition addNewVote (voteType : Z) (msg : Message) : Message :=
  if 0 <? voteType then setUpvotes (GoInt.incr (Upvotes msg)) msg
  else setDownvotes (GoInt.incr (Downvotes msg)) msg.

(** The [for i, msg := range chatMessages] loop of [voteMessage]: the first
    message whose [UniqueID] is [messageID] gets its counters updated and the
    loop returns; [None] when the loop runs to its end. *)
Fixpoint voteLoop (messageID : string) (prev : option Z) (voteType : Z)
    (msgs : list Message) : option (list Message) :=
  match msgs with
  | [] => None
  | msg :: rest =>
      if String.eqb (UniqueID msg) messageID
      then Some (addNewVote voteType (removePreviousVote prev msg) :: rest)
      else cons msg <$> voteLoop messageID prev voteType rest
  end.

Definition voteMessage (session : Session) (messageID : string) (voteType : Z)
    (g : Globals) : error * Globals :=
  let username := User session in
  (* a first-time voter gets an empty inner map *)
  let votes :=
    match userVotes g !! username with
    | Some _ => userVotes g
    | None => <[username := ∅]> (userVotes g)
    end in
  let userVotesForMessage := default ∅ (votes !! username) in
  (* a missing key reads as 0 *)
  if default 0 (userVotesForMessage !! messageID) =? voteType
  then (Some DuplicateVoteError, setUserVotes votes g)
  else
    match voteLoop messageID (userVotesForMessage !! messageID) voteType
                   (chatMessages g) with
    | Some msgs =>
        (None,
         mkGlobals msgs (onlineUsers g)
           (<[username := <[messageID := voteType]> userVotesForMessage]> votes))
    | None => (Some MessageNotFoundError, setUserVotes votes g)
    end.

(** ** Messages of the bubbletea runtime *)

Inductive KeyType : Type :=
  KeyCtrlC | KeyEsc | KeyTab | KeyEnter | KeyUp | KeyDown | KeyRunes | KeyOther.

(** [tea.Msg] as [Update] distinguishes it.  A [KeyMsg] carries its [Type]
    and the result of its [String()] method. *)
Inductive Msg : Type :=
  | WindowSizeMsg (Width Height : Z)
  | KeyMsg (Type_ : KeyType) (String_ : string)
  | messagesUpdatedMsg
  | errorMsg (e : string)
  | otherMsg.

(** [tea.Cmd] results of [Update]: [tea.Quit], [nil], and the batch
    [tea.Batch(tiCmd, vpCmd, m.checkNewMessages)] that re-arms the
    one-second refresh. *)
Inductive Cmd : Type := Quit | Nil | Batch.

(** The widgets, reduced to what [teaHandler] and [Update] set and read. *)
Record Textarea : Type := mkTextarea {
  Value     : string;
  Focused   : bool;
  taWidth   : Z;
  CharLimit : Z
}.

Record Viewport : Type := mkViewport {
  vpWidth  : Z;
  vpHeight : Z;
  content  : string
}.

(** ** External collaborators

    Code that is not part of this repository: the SHA-256 digest printed in
    hexadecimal, the [Update] methods of the bubbles widgets and the lipgloss
    rendering of one log entry. *)
Class Externals : Type := {
  sha256hex      : string -> string;
  textareaUpdate : Msg -> Textarea -> Textarea;
  viewportUpdate : Msg -> Viewport -> Viewport;
  (** the italic line of a system message *)
  renderSystem   : string -> string;
  (** the bordered box of a user message; the flag says whether it is drawn
      as the selected one *)
  renderBox      : bool -> Message -> string
}.

(** ** The message log *)

Definition generateUniqueMessageID `{Externals} (msg : Message) : string :=
  sha256hex (Username msg ++ Timestamp msg ++ Content msg).

(** [now] is [time.Now().Format("2006-01-02 15:04:05")] at the call. *)
Definition addMessage `{Externals} (now : string) (session : option Session)
    (message : string) (system : bool) (g : Globals) : Globals :=
  let timestamp := now in
  let pubKey :=
    match session with
    | Some s => match PublicKey s with
                | Some key => sha256hex key
                | None => "N/A"
                end
    | None => "N/A"
    end in
  let username :=
    match session with
    | Some s => User s
    | None => "Anonymous"
    end in
  let msg := mkMessage username timestamp pubKey message 0 0 "" system in
  let msg := if negb system
             then setUniqueID (generateUniqueMessageID msg) msg
             else msg in
  setChatMessages (chatMessages g ++ [msg]) g.

(** A copy of the log; in a value model the copy is the list itself. *)
Definition getMessages (g : Globals) : list Message := chatMessages g.

(** ** The per-connection model *)

Record model : Type := mkModel {
  session          : Session;
  viewport         : Viewport;
  textarea         : Textarea;
  term             : string;
  width            : Z;
  height           : Z;
  err              : error;
  lastMessageCount : Z;
  selectedMessage  : Z;
  isSelectMode     : bool
}.

Definition setViewport (v : Viewport) (m : model) : model :=
  mkModel (session m) v (textarea m) (term m) (width m) (height m) (err m)
          (lastMessageCount m) (selectedMessage m) (isSelectMode m).

Definition setTextarea (t : Textarea) (m : model) : model :=
  mkModel (session m) (viewport m) t (term m) (width m) (height m) (err m)
          (lastMessageCount m) (selectedMessage m) (isSelectMode m).

Definition setSize (w h : Z) (m : model) : model :=
  mkModel (session m) (viewport m) (textarea m) (term m) w h (err m)
          (lastMessageCount m) (selectedMessage m) (isSelectMode m).

Definition setErr (e : error) (m : model) : model :=
  mkModel (session m) (viewport m) (textarea m) (term m) (width m) (height m) e
          (lastMessageCount m) (selectedMessage m) (isSelectMode m).

Definition setLastMessageCount (n : Z) (m : model) : model :=
  mkModel (session m) (viewport m) (textarea m) (term m) (width m) (height m)
          (err m) n (selectedMessage m) (isSelectMode m).

Definition setSelectedMessage (n : Z) (m : model) : model :=
  mkModel (session m) (viewport m) (textarea m) (term m) (width m) (height m)
          (err m) (lastMessageCount m) n (isSelectMode m).

Definition setIsSelectMode (b : bool) (m : model) : model :=
  mkModel (session m) (viewport m) (textarea m) (term m) (width m) (height m)
          (err m) (lastMessageCount m) (selectedMessage m) b.

(** How a call ends: it returns, it panics on a slice index out of range, or
    the model's bound on loop iterations is used up. *)
Inductive Outcome (A : Type) : Type :=
  | Returned (a : A)
  | Panicked
  | OutOfFuel.
Arguments Returned {A} a.
Arguments Panicked {A}.
Arguments OutOfFuel {A}.

(** Widget methods called by the code. *)
Definition Blur (t : Textarea) : Textarea :=
  mkTextarea (Value t) false (taWidth t) (CharLimit t).
Definition Focus (t : Textarea) : Textarea :=
  mkTextarea (Value t) true (taWidth t) (CharLimit t).
Definition Reset (t : Textarea) : Textarea :=
  mkTextarea "" (Focused t) (taWidth t) (CharLimit t).
Definition SetWidth (w : Z) (t : Textarea) : Textarea :=
  mkTextarea (Value t) (Focused t) w (CharLimit t).
(** [SetContent], as far as the content goes. *)
Definition SetContent (s : string) (v : Viewport) : Viewport :=
  mkViewport (vpWidth v) (vpHeight v) s.

(** [GotoBottom] of the viewport widget.  It moves the offset to the last
    page and slices the visible lines out of the content; with a negative
    height the slice bounds are out of range and the call panics.  With a
    height of 0 or more it only scrolls, and the scroll offset is not
    modelled. *)
Definition GotoBottom (v : Viewport) : Outcome Viewport :=
  if vpHeight v <? 0 then Panicked else Returned v.

Definition newline : string := String "010"%char EmptyString.

(** The loop of [formatMessages]; [i] is the index of the head of
    [messages] in the slice that was passed. *)
Fixpoint formatLoop `{Externals} (m : model) (i : Z) (messages : list Message)
    : list string :=
  match messages with
  | [] => []
  | msg :: rest =>
      if isSelectMode m && System msg
      then formatLoop m (i + 1) rest
      else if System msg
      then renderSystem (Content msg) :: formatLoop m (i + 1) rest
      else renderBox (isSelectMode m && (i =? selectedMessage m)) msg
             :: formatLoop m (i + 1) rest
  end.

Definition formatMessages `{Externals} (m : model) (messages : list Message)
    : string :=
  String.concat newline (formatLoop m 0 messages).

(** The first two statements of [teaHandler], which write to the shared
    state: the connection is announced and counted. *)
Definition teaHandlerWrites `{Externals} (now : string) (s : Session)
    (g : Globals) : Globals :=
  let g := addMessage now None
             ("Silly goober " ++ User s ++
              " has made the mistake of joining the cult") true g in
  incrementUsers g.

(** [teaHandler]: a connection is announced, counted, and gets its model.
    The three arguments after the session are what [s.Pty()] reports.  The
    call ends in [GotoBottom], after the shared state has been written. *)
Definition teaHandler `{Externals} (now : string) (s : Session)
    (ptyWidth ptyHeight : Z) (ptyTerm : string) (g : Globals)
    : Outcome (model * Globals) :=
  let g := teaHandlerWrites now s g in
  let ta := mkTextarea "" true (GoInt.sub ptyWidth 2) 280 in
  let vp := mkViewport ptyWidth (GoInt.sub ptyHeight 5) "" in
  let existingMessages := getMessages g in
  let m := mkModel s vp ta ptyTerm ptyWidth ptyHeight None 0 0 false in
  let m := setViewport
             (SetContent (formatMessages m existingMessages) (viewport m)) m in
  match GotoBottom (viewport m) with
  | Returned vp => Returned (setViewport vp m, g)
  | Panicked => Panicked
  | OutOfFuel => OutOfFuel
  end.

(** [main], up to the point where the server starts listening. *)
Definition startGlobals `{Externals} (now : string) : Globals :=
  addMessage now None "Welcome to letsgosky.social" true emptyGlobals.

(** ** The state machine *)

(** The [for] loop under [tea.KeyUp].  The decrement is guarded by
    [selectedMessage > 0] and cannot wrap. *)
Fixpoint navigateUp (fuel : nat) (msgs : list Message) (selectedMessage : Z)
    : Outcome Z :=
  match fuel with
  | O => OutOfFuel
  | S fuel' =>
      let sel := if 0 <? selectedMessage
                 then selectedMessage - 1 else selectedMessage in
      if sel =? 0 then Returned sel
      else match index msgs sel with
           | None => Panicked
           | Some msg =>
               if negb (System msg) then Returned sel
               else navigateUp fuel' msgs sel
           end
  end.

(** The [for] loop under [tea.KeyDown].  The increment is guarded by
    [selectedMessage < len(chatMessages)-1] and cannot wrap. *)
Fixpoint navigateDown (fuel : nat) (msgs : list Message) (selectedMessage : Z)
    : Outcome Z :=
  match fuel with
  | O => OutOfFuel
  | S fuel' =>
      let sel := if selectedMessage <? len msgs - 1
                 then selectedMessage + 1 else selectedMessage in
      if sel =? len msgs - 1 then Returned sel
      else match index msgs sel with
           | None => Panicked
           | Some msg =>
               if negb (System msg) then Returned sel
               else navigateDown fuel' msgs sel
           end
  end.

(** The body shared by the ["u", "U"] and ["d", "D"] cases. *)
Definition voteSelected `{Externals} (voteType : Z) (m : model) (g : Globals)
    : Outcome (model * Cmd * Globals) :=
  if selectedMessage m <? len (chatMessages g) then
    match index (chatMessages g) (selectedMessage m) with
    | None => Panicked
    | Some selectedMsg =>
        match voteMessage (session m) (UniqueID selectedMsg) voteType g with
        | (Some e, g') => Returned (setErr (Some e) m, Batch, g')
        | (None, g') =>
            let updatedMessages := getMessages g' in
            Returned (setViewport
                        (SetContent (formatMessages m updatedMessages)
                                    (viewport m)) m,
                      Batch, g')
        end
    end
  else Returned (m, Batch, g).

(** The first two statements of [Update]: the text area sees the message
    unless the model is in selection mode, the viewport always does. *)
Definition updateWidgets `{Externals} (msg : Msg) (m : model) : model :=
  let m := if negb (isSelectMode m)
           then setTextarea (textareaUpdate msg (textarea m)) m
           else m in
  setViewport (viewportUpdate msg (viewport m)) m.

(** [func (m model) Update(msg tea.Msg) (tea.Model, tea.Cmd)], together with
    the package-level state it reads and writes.  [fuel] bounds the
    iterations of each navigation loop; [now] is the clock reading used if a
    message is added. *)
Definition Update `{Externals} (fuel : nat) (now : string) (msg : Msg)
    (m : model) (g : Globals) : Outcome (model * Cmd * Globals) :=
  let m := updateWidgets msg m in
  match msg with
  | WindowSizeMsg Width Height =>
      let m := setSize Width Height m in
      let m := setTextarea (SetWidth (GoInt.sub Width 2) (textarea m)) m in
      let m := setViewport
                 (mkViewport Width (GoInt.sub Height 5) (content (viewport m)))
                 m in
      Returned (m, Batch, g)
  | KeyMsg KeyCtrlC _ | KeyMsg KeyEsc _ =>
      Returned (m, Quit, decrementUsers g)
  | KeyMsg KeyTab _ =>
      let m := setIsSelectMode (negb (isSelectMode m)) m in
      if isSelectMode m then
        let m := setTextarea (Blur (textarea m)) m in
        let m := setSelectedMessage (len (chatMessages g) - 1) m in
        Returned (m, Batch, g)
      else
        Returned (setTextarea (Focus (textarea m)) m, Batch, g)
  | KeyMsg KeyEnter _ =>
      if negb (isSelectMode m) && negb (String.eqb (Value (textarea m)) "")
      then
        let g := addMessage now (Some (session m)) (Value (textarea m)) false g in
        let updatedMessages := getMessages g in
        let m := setViewport
                   (SetContent (formatMessages m updatedMessages) (viewport m))
                   m in
        let m := setTextarea (Reset (textarea m)) m in
        match GotoBottom (viewport m) with
        | Returned vp => Returned (setViewport vp m, Batch, g)
        | Panicked => Panicked
        | OutOfFuel => OutOfFuel
        end
      else Returned (m, Batch, g)
  | KeyMsg Type_ String_ =>
      if isSelectMode m then
        match Type_ with
        | KeyUp =>
            match navigateUp fuel (chatMessages g) (selectedMessage m) with
            | Returned sel =>
                let m := setSelectedMessage sel m in
                Returned (setViewport
                            (SetContent (formatMessages m (getMessages g))
                                        (viewport m)) m,
                          Batch, g)
            | Panicked => Panicked
            | OutOfFuel => OutOfFuel
            end
        | KeyDown =>
            match navigateDown fuel (chatMessages g) (selectedMessage m) with
            | Returned sel =>
                let m := setSelectedMessage sel m in
                Returned (setViewport
                            (SetContent (formatMessages m (getMessages g))
                                        (viewport m)) m,
                          Batch, g)
            | Panicked => Panicked
            | OutOfFuel => OutOfFuel
            end
        | KeyRunes =>
            if String.eqb String_ "u" || String.eqb String_ "U"
            then voteSelected 1 m g
            else if String.eqb String_ "d" || String.eqb String_ "D"
            then voteSelected (-1) m g
            else Returned (m, Batch, g)
        | _ => Returned (m, Batch, g)
        end
      else Returned (m, Batch, g)
  | messagesUpdatedMsg =>
      let updatedMessages := getMessages g in
      if negb (len updatedMessages =? lastMessageCount m) then
        let m := setViewport
                   (SetContent (formatMessages m updatedMessages) (viewport m))
                   m in
        match GotoBottom (viewport m) with
        | Returned vp =>
            let m := setViewport vp m in
            let m := setLastMessageCount (len updatedMessages) m in
            let m := setSelectedMessage (len updatedMessages - 1) m in
            Returned (m, Batch, g)
        | Panicked => Panicked
        | OutOfFuel => OutOfFuel
        end
      else Returned (m, Batch, g)
  | errorMsg e =>
      Returned (setErr (Some e) m, Nil, g)
  | otherMsg =>
      Returned (m, Batch, g)
  end.

(** A run of the controller over a list of runtime messages, each with the
    clock reading at its delivery.  [tea.Quit], a panic or an exhausted bound
    ends the run. *)
Fixpoint run `{Externals} (fuel : nat) (events : list (string * Msg))
    (m : model) (g : Globals) : Outcome (model * Globals) :=
  match events with
  | [] => Returned (m, g)
  | (now, msg) :: rest =>
      match Update fuel now msg m g with
      | Returned (m', Quit, g') => Returned (m', g')
      | Returned (m', _, g') => run fuel rest m' g'
      | Panicked => Panicked
      | OutOfFuel => OutOfFuel
      end
  end.

(** ** A concrete instance of the collaborators

    Used where a statement is evaluated on explicit data.  None of the
    results below depends on which digest or rendering is plugged in. *)

(** The text area of the instance, with the cursor at the end of the text.
    Like the program's widget it ignores everything while it is not focused,
    inserts a line break on the enter key (the key binding is left enabled by
    [teaHandler]) and inserts typed runes as far as [CharLimit] allows. *)
Definition typeInto (msg : Msg) (t : Textarea) : Textarea :=
  if negb (Focused t) then t
  else
    match msg with
    | KeyMsg KeyEnter _ =>
        mkTextarea (Value t ++ newline) (Focused t) (taWidth t) (CharLimit t)
    | KeyMsg KeyRunes runes =>
        let availSpace := CharLimit t - Z.of_nat (String.length (Value t)) in
        if availSpace <=? 0 then t
        else mkTextarea (Value t ++ substring 0 (Z.to_nat availSpace) runes)
                        (Focused t) (taWidth t) (CharLimit t)
    | _ => t
    end.

Definition plainExternals : Externals := {|
  sha256hex := fun s => "#" ++ s;
  textareaUpdate := typeInto;
  viewportUpdate := fun _ v => v;
  renderSystem := fun s => s;
  renderBox := fun sel msg =>
    (if sel then "> " else "  ") ++ Username msg ++ ": " ++ Content msg
|}.

(** ** The specification's wording, for comparison with the code *)

Definition isSpace (c : ascii) : bool :=
  match nat_of_ascii c with
  | 9%nat | 10%nat | 11%nat | 12%nat | 13%nat | 32%nat => true
  | _ => false
  end.

Fixpoint trimLeft (s : string) : string :=
  match s with
  | String c rest => if isSpace c then trimLeft rest else s
  | EmptyString => EmptyString
  end.

Fixpoint revString (s acc : string) : string :=
  match s with
  | String c rest => revString rest (String c acc)
  | EmptyString => acc
  end.

(** "trims [text]": leading and trailing white space removed. *)
Definition spec_trim (s : string) : string :=
  revString (trimLeft (revString (trimLeft s) "")) "".

(** "scan backward from the end ..., skipping system messages": [revMsgs] is
    the log from its end, [i] the index of its head. *)
Fixpoint scanBackward (revMsgs : list Message) (i : Z) : option Z :=
  match revMsgs with
  | [] => None
  | msg :: rest => if System msg then scanBackward rest (i - 1) else Some i
  end.

(** "the index of the most recent non-system message". *)
Definition spec_newestNonSystem (msgs : list Message) : option Z :=
  scanBackward (rev msgs) (len msgs - 1).

(** "decrement old counter, increment new counter", in exact arithmetic:
    the message after a vote recorded as [d] has been flipped. *)
Definition flipped (d : Direction) (msg : Message) : Message :=
  match d with
  | Up => setDownvotes (Downvotes msg + 1) (setUpvotes (Upvotes msg - 1) msg)
  | Down => setUpvotes (Upvotes msg + 1) (setDownvotes (Downvotes msg - 1) msg)
  end.

(** ** Runs used in the statements *)

(** [n] successive flips by one voter on one message id, starting from a
    vote recorded as [d]. *)
Fixpoint flipVotes (s : Session) (messageID : string) (d : Direction)
    (n : nat) (g : Globals) : Globals :=
  match n with
  | O => g
  | S n' =>
      flipVotes s messageID (opposite d) n'
        (snd (voteMessage s messageID (voteTypeOf (opposite d)) g))
  end.

Definition dirAfter (n : nat) (d : Direction) : Direction :=
  if Nat.even n then d else opposite d.

Definition msgAfter (n : nat) (d : Direction) (msg : Message) : Message :=
  if Nat.even n then msg else flipped d msg.

(** Both counters can take a flip away from [d] and back without leaving
    the range of [int]. *)
Definition flipRoom (d : Direction) (msg : Message) : Prop :=
  match d with
  | Up => GoInt.min_int < Upvotes msg <= GoInt.max_int /\
          GoInt.min_int <= Downvotes msg < GoInt.max_int
  | Down => GoInt.min_int < Downvotes msg <= GoInt.max_int /\
            GoInt.min_int <= Upvotes msg < GoInt.max_int
  end.

(** Connect and disconnect notifications, in any order. *)
Inductive PresenceCall : Type := Increment | Decrement.

Definition presenceStep (g : Globals) (c : PresenceCall) : Globals :=
  match c with
  | Increment => incrementUsers g
  | Decrement => decrementUsers g
  end.

Definition presenceRun (calls : list PresenceCall) (g : Globals) : Globals :=
  fold_left presenceStep calls g.


Definition nonSystemAt (msgs : list Message) (i : Z) : Prop :=
  exists msg, index msgs i = Some msg /\ System msg = false.

(** Where the selection may rest after a navigation key of type [k]. *)
Definition restsAfter (k : KeyType) (msgs : list Message) (sel : Z) : Prop :=
  0 <= sel < len msgs /\
  (nonSystemAt msgs sel \/
   (k = KeyUp /\ sel = 0) \/
   (k = KeyDown /\ sel = len msgs - 1)).

(** ** Notions used for the log and the vote records as a whole *)

(** The fields of a message that no function assigns after creation. *)
Definition fixedFields (msg : Message)
    : string * string * string * string * string * bool :=
  (Username msg, Timestamp msg, PubKey msg, Content msg, UniqueID msg,
   System msg).

(** The message after a first vote in direction [d], in exact arithmetic. *)
Definition counted (d : Direction) (msg : Message) : Message :=
  match d with
  | Up => setUpvotes (Upvotes msg + 1) msg
  | Down => setDownvotes (Downvotes msg + 1) msg
  end.

(** The counter a vote in direction [d] adds to. *)
Definition counterOf (d : Direction) (msg : Message) : Z :=
  match d with
  | Up => Upvotes msg
  | Down => Downvotes msg
  end.

(** Whether a recorded vote type counts as an upvote, as a downvote:
    the tests [prevVote > 0] and [prevVote < 0] of [voteMessage]. *)
Definition isUp (v : Z) : bool := 0 <? v.
Definition isDown (v : Z) : bool := v <? 0.

(** What one voter's inner map contributes to a count: 1 when the record
    for [messageID] satisfies [p], a missing record reading as 0. *)
Definition counts (p : Z -> bool) (messageID : string)
    (userVotesForMessage : gmap string Z) : Z :=
  if p (default 0 (userVotesForMessage !! messageID)) then 1 else 0.

(** The number of voters whose record for [messageID] satisfies [p]. *)
Definition tally (p : Z -> bool) (messageID : string)
    (votes : gmap string (gmap string Z)) : Z :=
  map_fold (fun _ userVotesForMessage acc =>
              counts p messageID userVotesForMessage + acc)
           0 votes.

(** Counters and records agree: the first message of the log with a given
    id carries, modulo the width of [int], the numbers of voters recorded
    up and down for that id; a later message with the same id carries
    zeros; and nobody has a record for an id that is not in the log. *)
Definition tallied (g : Globals) : Prop :=
  (forall (i : nat) (msg : Message),
     chatMessages g !! i = Some msg ->
     if bool_decide (UniqueID msg ∈ UniqueID <$> take i (chatMessages g))
     then Upvotes msg = 0 /\ Downvotes msg = 0
     else Upvotes msg = GoInt.wrap (tally isUp (UniqueID msg) (userVotes g)) /\
          Downvotes msg
            = GoInt.wrap (tally isDown (UniqueID msg) (userVotes g))) /\
  (forall messageID username votes,
     messageID ∉ UniqueID <$> chatMessages g ->
     userVotes g !! username = Some votes ->
     votes !! messageID = None).

(** A message as the calls of [addMessage] in this program create it: a
    system message is added without session, so it is signed "Anonymous"
    with key "N/A" and keeps the empty id; a user message has the digest of
    its user name, time stamp and content as id. *)
Definition asAdded `{Externals} (msg : Message) : Prop :=
  if System msg
  then Username msg = "Anonymous" /\ PubKey msg = "N/A" /\ UniqueID msg = ""
  else UniqueID msg
       = sha256hex (Username msg ++ Timestamp msg ++ Content msg).

Definition idsAssigned `{Externals} (g : Globals) : Prop :=
  Forall asAdded (chatMessages g).

(** The shared states the server can be in: [main] has run, and then
    connections were accepted and runtime messages were handled, for any
    connections in any order.  A connection counts from the moment
    [teaHandler] has written to the shared state, whether or not the call
    then returns.  The per-connection models are not tracked; any model may
    be the one that handles a message. *)
Inductive reachable `{Externals} : Globals -> Prop :=
  | reachable_main now :
      reachable (startGlobals now)
  | reachable_connect now s g :
      reachable g ->
      reachable (teaHandlerWrites now s g)
  | reachable_update fuel now msg m g m' c g' :
      reachable g ->
      Update fuel now msg m g = Returned (m', c, g') ->
      reachable g'.

(** The selection is an index of the log. *)
Definition selectionInLog (m : model) (g : Globals) : Prop :=
  0 <= selectedMessage m < len (chatMessages g).

(** The number of messages that [formatMessages] renders. *)
Definition rendered (isSelectMode : bool) (messages : list Message) : nat :=
  if isSelectMode
  then length (List.filter (fun msg => negb (System msg)) messages)
  else length messages.


(** A runtime message that leaves the viewport a height of 0 or more: a
    window size message must report at least the 5 rows that [Update]
    subtracts. *)
Definition fitsViewport (msg : Msg) : Prop :=
  match msg with
  | WindowSizeMsg _ Height => 5 <= Height <= GoInt.max_int
  | _ => True
  end.

(** The viewport widget's own [Update] scrolls and never resizes. *)
Definition keepsHeight `{Externals} : Prop :=
  forall msg v, vpHeight (viewportUpdate msg v) = vpHeight v.


(** ** Sample data *)

(** Two sessions with one user name and different public keys. *)
Definition alice : Session := mkSession "alice" (Some "key-1").
Definition alice2 : Session := mkSession "alice" (Some "key-2").

Definition welcome : Message :=
  mkMessage "Anonymous" "t0" "N/A" "Welcome to letsgosky.social" 0 0 "" true.
Definition joined : Message :=
  mkMessage "Anonymous" "t2" "N/A"
    "Silly goober bob has made the mistake of joining the cult" 0 0 "" true.
Definition hello : Message :=
  mkMessage "alice" "t1" "#key-1" "hello" 0 0 "#alicet1hello" false.
Definition again : Message :=
  mkMessage "alice" "t3" "#key-1" "again" 0 0 "#alicet3again" false.

(** A model as [teaHandler] builds it for an 80x24 terminal. *)
Definition inputModel : model :=
  mkModel alice (mkViewport 80 19 "") (mkTextarea "" true 78 280) "xterm"
          80 24 None 0 0 false.

(** The same connection, in selection mode with index [i] selected. *)
Definition selecting (i : Z) : model :=
  setSelectedMessage i (setIsSelectMode true inputModel).

(** The same connection with [text] typed into the text area. *)
Definition typing (text : string) : model :=
  setTextarea (mkTextarea text true 78 280) inputModel.

(** alice has upvoted [hello]. *)
Definition upvotedGlobals : Globals :=
  mkGlobals [welcome; setUpvotes 1 hello] 1
            {[ "alice" := {[ "#alicet1hello" := 1 ]} ]}.

(** A short session on a fresh server: alice connects, types [hello],
    presses enter, presses tab and upvotes the selected message.  The
    shared state at the end. *)
Definition sessionGlobals : Globals :=
  match run (H := plainExternals) 3
            [("t2", KeyMsg KeyEnter "enter"); ("t3", KeyMsg KeyTab "tab");
             ("t4", KeyMsg KeyRunes "u")]
            (typing "hello")
            (teaHandlerWrites (H := plainExternals) "t1" alice
               (startGlobals (H := plainExternals) "t0")) with
  | Returned (_, g) => g
  | _ => emptyGlobals
  end.

(** The message alice has posted and upvoted in that session. *)
Definition posted : Message :=
  mkMessage "alice" "t2" "#key-1" ("hello" ++ newline) 1 0
            ("#alicet2hello" ++ newline) false.

(** 281 characters. *)
Definition longContent : string :=
  String.concat "" (repeat "a" 281).

(** * Properties *)

(** ** Arithmetic on [int] *)

Module GoIntFacts.
Import GoInt.

Lemma wrap_in_range x : in_range x -> wrap x = x.
Proof.
  unfold in_range, min_int, max_int, wrap. intros Hx.
  rewrite Z.mod_small; lia.
Qed.

Lemma wrap_range x : in_range (wrap x).
Proof.
  unfold in_range, min_int, max_int, wrap.
  pose proof (Z.mod_pos_bound (x + 2 ^ 63) (2 ^ 64)). lia.
Qed.

Lemma incr_exact x : min_int <= x < max_int -> incr x = x + 1.
Proof.
  intros Hx. unfold incr. apply wrap_in_range.
  unfold in_range, min_int, max_int in *. lia.
Qed.

Lemma decr_exact x : min_int < x <= max_int -> decr x = x - 1.
Proof.
  intros Hx. unfold decr. apply wrap_in_range.
  unfold in_range, min_int, max_int in *. lia.
Qed.

(** The one place where [x++] is not [x + 1]. *)
Lemma incr_max : incr max_int = min_int.
Proof. reflexivity. Qed.

End GoIntFacts.

(** ** Presence counter *)

Lemma incrementUsers_count g :
  GoInt.min_int <= onlineUsers g < GoInt.max_int ->
  onlineUsers (incrementUsers g) = onlineUsers g + 1.
Proof. intros Hg. simpl. by apply GoIntFacts.incr_exact. Qed.

Lemma decrementUsers_positive g :
  0 < onlineUsers g <= GoInt.max_int ->
  onlineUsers (decrementUsers g) = onlineUsers g - 1.
Proof.
  intros Hg. unfold decrementUsers.
  destruct (Z.ltb_spec 0 (onlineUsers g)); [|lia].
  simpl. apply GoIntFacts.decr_exact. unfold GoInt.min_int. lia.
Qed.

Lemma decrementUsers_floor g :
  onlineUsers g <= 0 -> decrementUsers g = g.
Proof.
  intros Hg. unfold decrementUsers.
  by destruct (Z.ltb_spec 0 (onlineUsers g)); [lia|].
Qed.

Lemma presenceStep_bounds g c :
  0 <= onlineUsers g < GoInt.max_int ->
  0 <= onlineUsers (presenceStep g c) <= onlineUsers g + 1.
Proof.
  intros Hg. destruct c; simpl presenceStep.
  - rewrite incrementUsers_count; [lia|]. unfold GoInt.min_int. lia.
  - destruct (Z.eq_dec (onlineUsers g) 0) as [Hz|Hnz].
    + rewrite decrementUsers_floor; lia.
    + rewrite decrementUsers_positive; lia.
Qed.

Lemma presenceRun_bounds calls : forall g,
  0 <= onlineUsers g ->
  onlineUsers g + len calls < GoInt.max_int ->
  0 <= onlineUsers (presenceRun calls g) <= onlineUsers g + len calls.
Proof.
  unfold presenceRun, len.
  induction calls as [|c calls IH]; intros g Hpos Hcap; simpl.
  - lia.
  - simpl length in Hcap.
    pose proof (presenceStep_bounds g c ltac:(lia)) as Hstep.
    specialize (IH (presenceStep g c) ltac:(lia) ltac:(lia)). lia.
Qed.

(** C10. In every state reached from a non-negative count by connect and
    disconnect notifications that fit the capacity of an [int], the presence
    count is non-negative, [incrementUsers] adds one, [decrementUsers]
    subtracts one when the count is positive and changes nothing when it is
    zero. *)
Theorem presence_count_never_negative (calls : list PresenceCall) (g : Globals) :
  0 <= onlineUsers g ->
  onlineUsers g + len calls < GoInt.max_int ->
  let g' := presenceRun calls g in
  0 <= onlineUsers g' /\
  onlineUsers (incrementUsers g') = onlineUsers g' + 1 /\
  (0 < onlineUsers g' -> onlineUsers (decrementUsers g') = onlineUsers g' - 1) /\
  (onlineUsers g' = 0 -> decrementUsers g' = g') /\
  0 <= onlineUsers (decrementUsers g').
Proof.
  intros Hpos Hcap g'.
  pose proof (presenceRun_bounds calls g Hpos Hcap) as Hb. fold g' in Hb.
  assert (Hmin : GoInt.min_int <= 0) by (unfold GoInt.min_int; lia).
  repeat split.
  - lia.
  - apply incrementUsers_count. lia.
  - intros Hgt. apply decrementUsers_positive. lia.
  - intros Hz. apply decrementUsers_floor. lia.
  - destruct (Z.eq_dec (onlineUsers g') 0) as [Hz|Hnz].
    + rewrite decrementUsers_floor; lia.
    + rewrite decrementUsers_positive; lia.
Qed.

Lemma presence_count_never_negative_witness :
  let g' := presenceRun [Decrement; Increment; Decrement; Decrement; Increment]
                        emptyGlobals in
  0 <= onlineUsers g' /\
  onlineUsers (incrementUsers g') = onlineUsers g' + 1 /\
  (0 < onlineUsers g' -> onlineUsers (decrementUsers g') = onlineUsers g' - 1) /\
  (onlineUsers g' = 0 -> decrementUsers g' = g') /\
  0 <= onlineUsers (decrementUsers g').
Proof.
  apply (presence_count_never_negative
           [Decrement; Increment; Decrement; Decrement; Increment] emptyGlobals).
  - simpl. lia.
  - vm_compute. reflexivity.
Defined.

(** ** Votes *)

Lemma setUserVotes_same g : setUserVotes (userVotes g) g = g.
Proof. by destruct g. Qed.

(** A vote that repeats the recorded vote type is refused and nothing
    changes. *)
Lemma voteMessage_duplicate s messageID voteType g :
  recorded g (User s) messageID = Some voteType ->
  voteMessage s messageID voteType g = (Some DuplicateVoteError, g).
Proof.
  unfold recorded, voteMessage. intros Hrec.
  destruct (userVotes g !! User s) as [votes|] eqn:Hu; simpl in Hrec; [|done].
  rewrite Hu. simpl. rewrite Hrec. simpl.
  by rewrite Z.eqb_refl, setUserVotes_same.
Qed.

(** C1. When the vote type passed to [voteMessage] is the one recorded for
    the voter on that message id, the call returns the duplicate-vote error
    and the whole shared state (every counter of every message, every vote
    record) is as before. *)
Theorem vote_same_direction_rejected (s : Session) (messageID : string)
    (voteType : Z) (g : Globals) :
  recorded g (User s) messageID = Some voteType ->
  fst (voteMessage s messageID voteType g) = Some DuplicateVoteError /\
  snd (voteMessage s messageID voteType g) = g /\
  chatMessages (snd (voteMessage s messageID voteType g)) = chatMessages g /\
  recorded (snd (voteMessage s messageID voteType g)) (User s) messageID
    = Some voteType.
Proof.
  intros Hrec. rewrite (voteMessage_duplicate _ _ _ _ Hrec). simpl.
  by repeat split.
Qed.

Lemma vote_same_direction_rejected_witness :
  fst (voteMessage alice "#alicet1hello" 1 upvotedGlobals)
    = Some DuplicateVoteError /\
  snd (voteMessage alice "#alicet1hello" 1 upvotedGlobals) = upvotedGlobals /\
  chatMessages (snd (voteMessage alice "#alicet1hello" 1 upvotedGlobals))
    = chatMessages upvotedGlobals /\
  recorded (snd (voteMessage alice "#alicet1hello" 1 upvotedGlobals))
           (User alice) "#alicet1hello" = Some 1.
Proof.
  apply (vote_same_direction_rejected alice "#alicet1hello" 1 upvotedGlobals).
  vm_compute. reflexivity.
Defined.

(** C9. [voteMessage] reads nothing of the session but its user name: two
    sessions with the same name get the same result in every state, whatever
    their public keys, and a vote accepted for one is a duplicate for the
    other. *)
Theorem vote_keyed_by_user_name (s1 s2 : Session) (messageID : string)
    (voteType : Z) (g : Globals) :
  User s1 = User s2 ->
  voteMessage s1 messageID voteType g = voteMessage s2 messageID voteType g /\
  (forall g', voteMessage s1 messageID voteType g = (None, g') ->
     voteMessage s2 messageID voteType g' = (Some DuplicateVoteError, g')).
Proof.
  intros Hname. split.
  - unfold voteMessage. by rewrite Hname.
  - intros g' Hvote. apply voteMessage_duplicate. rewrite <- Hname.
    unfold voteMessage in Hvote.
    destruct (default 0 _ =? voteType); [done|].
    destruct (voteLoop _ _ _ _); [|done].
    injection Hvote as <-. unfold recorded. simpl.
    rewrite lookup_insert_eq. simpl. by rewrite lookup_insert_eq.
Qed.

Lemma vote_keyed_by_user_name_witness :
  PublicKey alice <> PublicKey alice2 /\
  voteMessage alice "#alicet1hello" (-1) upvotedGlobals
    = voteMessage alice2 "#alicet1hello" (-1) upvotedGlobals /\
  (forall g', voteMessage alice "#alicet1hello" (-1) upvotedGlobals = (None, g') ->
     voteMessage alice2 "#alicet1hello" (-1) g' = (Some DuplicateVoteError, g')).
Proof.
  split; [discriminate|].
  apply (vote_keyed_by_user_name alice alice2 "#alicet1hello" (-1)
           upvotedGlobals).
  reflexivity.
Defined.

Lemma voteLoop_first messageID prev voteType pre msg post :
  Forall (fun x => UniqueID x <> messageID) pre ->
  UniqueID msg = messageID ->
  voteLoop messageID prev voteType (pre ++ msg :: post)%list
  = Some (pre ++ addNewVote voteType (removePreviousVote prev msg) :: post)%list.
Proof.
  intros Hpre Hid. induction Hpre as [|x pre Hx _ IH]; simpl.
  - apply String.eqb_eq in Hid. by rewrite Hid.
  - apply String.eqb_neq in Hx. rewrite Hx, IH. done.
Qed.

Lemma voteLoop_flip d msg :
  flipRoom d msg ->
  addNewVote (voteTypeOf (opposite d))
             (removePreviousVote (Some (voteTypeOf d)) msg)
  = flipped d msg.
Proof.
  destruct d; simpl; intros [Ha Hb]; unfold addNewVote; simpl.
  - rewrite GoIntFacts.decr_exact, GoIntFacts.incr_exact; done.
  - rewrite GoIntFacts.decr_exact, GoIntFacts.incr_exact; done.
Qed.

Lemma flipped_room d msg : flipRoom d msg -> flipRoom (opposite d) (flipped d msg).
Proof. destruct d; simpl; lia. Qed.

Lemma flipped_back d msg : flipped (opposite d) (flipped d msg) = msg.
Proof.
  destruct msg, d; unfold flipped, setUpvotes, setDownvotes; simpl; f_equal; lia.
Qed.

Lemma flipped_id d msg : UniqueID (flipped d msg) = UniqueID msg.
Proof. by destruct d. Qed.

Lemma voteTypeOf_opposite d : (voteTypeOf d =? voteTypeOf (opposite d)) = false.
Proof. by destruct d. Qed.

(** One flip. *)
Lemma voteMessage_flip s messageID d pre msg post g :
  recorded g (User s) messageID = Some (voteTypeOf d) ->
  chatMessages g = (pre ++ msg :: post)%list ->
  UniqueID msg = messageID ->
  Forall (fun x => UniqueID x <> messageID) pre ->
  flipRoom d msg ->
  exists g',
    voteMessage s messageID (voteTypeOf (opposite d)) g = (None, g') /\
    chatMessages g' = (pre ++ flipped d msg :: post)%list /\
    recorded g' (User s) messageID = Some (voteTypeOf (opposite d)) /\
    onlineUsers g' = onlineUsers g.
Proof.
  unfold recorded, voteMessage. intros Hrec Hlog Hid Hpre Hroom.
  destruct (userVotes g !! User s) as [votes|] eqn:Hu; simpl in Hrec; [|done].
  rewrite Hu. simpl. rewrite Hrec. simpl.
  rewrite voteTypeOf_opposite, Hlog.
  rewrite (voteLoop_first _ _ _ _ _ _ Hpre Hid), (voteLoop_flip _ _ Hroom).
  eexists. split; [reflexivity|]. simpl.
  rewrite lookup_insert_eq. simpl. by rewrite lookup_insert_eq.
Qed.

Lemma dirAfter_succ n d : dirAfter n (opposite d) = dirAfter (S n) d.
Proof.
  unfold dirAfter. rewrite Nat.even_succ, <- Nat.negb_even.
  by destruct (Nat.even n), d.
Qed.

Lemma msgAfter_succ n d msg :
  msgAfter n (opposite d) (flipped d msg) = msgAfter (S n) d msg.
Proof.
  unfold msgAfter. rewrite Nat.even_succ, <- Nat.negb_even.
  destruct (Nat.even n); simpl; [done|apply flipped_back].
Qed.

(** C2. Take a voter whose vote on a message is recorded as [d], the message
    being the first of the log with that id, its counters with room in
    [int].  After any number [n] of successive flips the log differs from the
    original one in that message only, and one more call of [voteMessage]
    with the opposite of the recorded direction succeeds, takes exactly one
    from the counter of the recorded direction, adds exactly one to the
    other, and records the new direction. *)
Theorem vote_flip_moves_one_each (s : Session) (messageID : string)
    (d : Direction) (pre post : list Message) (msg : Message) (n : nat)
    (g : Globals) :
  recorded g (User s) messageID = Some (voteTypeOf d) ->
  chatMessages g = (pre ++ msg :: post)%list ->
  UniqueID msg = messageID ->
  Forall (fun x => UniqueID x <> messageID) pre ->
  flipRoom d msg ->
  let gn := flipVotes s messageID d n g in
  let dn := dirAfter n d in
  let msgn := msgAfter n d msg in
  chatMessages gn = (pre ++ msgn :: post)%list /\
  recorded gn (User s) messageID = Some (voteTypeOf dn) /\
  exists g',
    voteMessage s messageID (voteTypeOf (opposite dn)) gn = (None, g') /\
    chatMessages g' = (pre ++ flipped dn msgn :: post)%list /\
    recorded g' (User s) messageID = Some (voteTypeOf (opposite dn)).
Proof.
  revert d msg g. induction n as [|n IH]; intros d msg g Hrec Hlog Hid Hpre Hroom.
  - simpl. unfold dirAfter, msgAfter. simpl.
    split; [done|]. split; [done|].
    destruct (voteMessage_flip s messageID d pre msg post g)
      as (g' & Hv & Hl & Hr & _); try done.
    by exists g'.
  - destruct (voteMessage_flip s messageID d pre msg post g)
      as (g1 & Hv & Hl & Hr & _); try done.
    assert (Hid1 : UniqueID (flipped d msg) = messageID)
      by (by rewrite flipped_id).
    specialize (IH (opposite d) (flipped d msg) g1 Hr Hl Hid1 Hpre
                   (flipped_room _ _ Hroom)).
    simpl flipVotes. rewrite Hv. simpl snd.
    rewrite <- dirAfter_succ, <- msgAfter_succ. exact IH.
Qed.

Lemma vote_flip_moves_one_each_witness :
  let gn := flipVotes alice "#alicet1hello" Up 3 upvotedGlobals in
  let dn := dirAfter 3 Up in
  let msgn := msgAfter 3 Up (setUpvotes 1 hello) in
  chatMessages gn = ([welcome] ++ msgn :: [])%list /\
  recorded gn (User alice) "#alicet1hello" = Some (voteTypeOf dn) /\
  exists g',
    voteMessage alice "#alicet1hello" (voteTypeOf (opposite dn)) gn = (None, g') /\
    chatMessages g' = ([welcome] ++ flipped dn msgn :: [])%list /\
    recorded g' (User alice) "#alicet1hello" = Some (voteTypeOf (opposite dn)).
Proof.
  apply (vote_flip_moves_one_each alice "#alicet1hello" Up [welcome] []
           (setUpvotes 1 hello) 3 upvotedGlobals).
  - vm_compute. reflexivity.
  - reflexivity.
  - reflexivity.
  - repeat constructor. discriminate.
  - unfold flipRoom, GoInt.min_int, GoInt.max_int. simpl. lia.
Defined.

(** ** Navigation in selection mode *)

Lemma index_in_range {A : Type} (l : list A) (i : Z) :
  0 <= i < len l -> exists x, index l i = Some x.
Proof.
  unfold index, len. intros Hi.
  destruct (Z.ltb_spec i 0) as [Hneg|_]; [lia|].
  apply lookup_lt_is_Some_2. lia.
Qed.

Lemma navigateUp_returns msgs : forall fuel sel,
  0 <= sel < len msgs ->
  sel < Z.of_nat fuel ->
  exists sel',
    navigateUp fuel msgs sel = Returned sel' /\
    0 <= sel' <= sel /\
    (sel' = 0 \/ nonSystemAt msgs sel').
Proof.
  induction fuel as [|fuel IH]; intros sel Hsel Hfuel; [lia|].
  simpl. destruct (Z.ltb_spec 0 sel) as [Hpos|Hzero].
  - destruct (Z.eqb_spec (sel - 1) 0) as [Hone|Hmore].
    + exists (sel - 1). split; [done|]. split; [lia|by left].
    + destruct (index_in_range msgs (sel - 1)) as [msg Hmsg]; [lia|].
      rewrite Hmsg. destruct (System msg) eqn:Hsys; simpl.
      * destruct (IH (sel - 1)) as (sel' & Hnav & Hle & Hrest); [lia|lia|].
        exists sel'. split; [done|]. split; [lia|done].
      * exists (sel - 1). split; [done|]. split; [lia|].
        right. by exists msg.
  - assert (sel = 0) as -> by lia. simpl.
    exists 0. split; [done|]. split; [lia|by left].
Qed.

Lemma navigateDown_returns msgs : forall fuel sel,
  0 <= sel < len msgs ->
  len msgs - 1 - sel < Z.of_nat fuel ->
  exists sel',
    navigateDown fuel msgs sel = Returned sel' /\
    sel <= sel' < len msgs /\
    (sel' = len msgs - 1 \/ nonSystemAt msgs sel').
Proof.
  induction fuel as [|fuel IH]; intros sel Hsel Hfuel; [lia|].
  simpl. destruct (Z.ltb_spec sel (len msgs - 1)) as [Hlt|Hlast].
  - destruct (Z.eqb_spec (sel + 1) (len msgs - 1)) as [Hone|Hmore].
    + exists (sel + 1). split; [done|]. split; [lia|by left].
    + destruct (index_in_range msgs (sel + 1)) as [msg Hmsg]; [lia|].
      rewrite Hmsg. destruct (System msg) eqn:Hsys; simpl.
      * destruct (IH (sel + 1)) as (sel' & Hnav & Hle & Hrest); [lia|lia|].
        exists sel'. split; [done|]. split; [lia|done].
      * exists (sel + 1). split; [done|]. split; [lia|].
        right. by exists msg.
  - assert (sel = len msgs - 1) as -> by lia. rewrite Z.eqb_refl.
    exists (len msgs - 1). split; [done|]. split; [lia|by left].
Qed.

Lemma updateWidgets_fields `{Externals} msg m :
  isSelectMode (updateWidgets msg m) = isSelectMode m /\
  selectedMessage (updateWidgets msg m) = selectedMessage m /\
  lastMessageCount (updateWidgets msg m) = lastMessageCount m /\
  session (updateWidgets msg m) = session m.
Proof. unfold updateWidgets. by destruct (negb (isSelectMode m)). Qed.

Lemma Update_KeyUp `{Externals} fuel now str m g sel :
  isSelectMode m = true ->
  navigateUp fuel (chatMessages g) (selectedMessage m) = Returned sel ->
  exists m',
    Update fuel now (KeyMsg KeyUp str) m g = Returned (m', Batch, g) /\
    isSelectMode m' = true /\
    selectedMessage m' = sel.
Proof.
  intros Hmode Hnav.
  destruct (updateWidgets_fields (KeyMsg KeyUp str) m) as (Hm & Hs & _).
  unfold Update; cbv zeta. rewrite Hm, Hmode, Hs, Hnav.
  eexists. split; [reflexivity|]. simpl. by rewrite Hmode.
Qed.

Lemma Update_KeyDown `{Externals} fuel now str m g sel :
  isSelectMode m = true ->
  navigateDown fuel (chatMessages g) (selectedMessage m) = Returned sel ->
  exists m',
    Update fuel now (KeyMsg KeyDown str) m g = Returned (m', Batch, g) /\
    isSelectMode m' = true /\
    selectedMessage m' = sel.
Proof.
  intros Hmode Hnav.
  destruct (updateWidgets_fields (KeyMsg KeyDown str) m) as (Hm & Hs & _).
  unfold Update; cbv zeta. rewrite Hm, Hmode, Hs, Hnav.
  eexists. split; [reflexivity|]. simpl. by rewrite Hmode.
Qed.


(** One navigation key press from a selection inside the log. *)
Lemma Update_navigation `{Externals} fuel now k str m g :
  isSelectMode m = true ->
  0 <= selectedMessage m < len (chatMessages g) ->
  (length (chatMessages g) <= fuel)%nat ->
  k = KeyUp \/ k = KeyDown ->
  exists m',
    Update fuel now (KeyMsg k str) m g = Returned (m', Batch, g) /\
    isSelectMode m' = true /\
    restsAfter k (chatMessages g) (selectedMessage m').
Proof.
  intros Hmode Hsel Hfuel Hk. unfold restsAfter.
  destruct Hk as [-> | ->].
  - destruct (navigateUp_returns (chatMessages g) fuel (selectedMessage m))
      as (sel' & Hnav & Hle & Hrest); [done|unfold len in *; lia|].
    destruct (Update_KeyUp fuel now str m g sel' Hmode Hnav)
      as (m' & Hup & Hm' & <-).
    exists m'. split; [done|]. split; [done|]. split; [lia|].
    destruct Hrest; [right; left|left]; done.
  - destruct (navigateDown_returns (chatMessages g) fuel (selectedMessage m))
      as (sel' & Hnav & Hle & Hrest); [done|unfold len in *; lia|].
    destruct (Update_KeyDown fuel now str m g sel' Hmode Hnav)
      as (m' & Hup & Hm' & <-).
    exists m'. split; [done|]. split; [done|]. split; [lia|].
    destruct Hrest; [right; right|left]; done.
Qed.




(** ** Entering selection mode *)







(** ** Appending *)

Lemma addMessage_appends `{Externals} now session message system g :
  exists msg,
    chatMessages (addMessage now session message system g)
      = (chatMessages g ++ [msg])%list /\
    Content msg = message /\
    System msg = system /\
    Upvotes msg = 0 /\ Downvotes msg = 0 /\
    Username msg = match session with
                   | Some s => User s
                   | None => "Anonymous"
                   end /\
    Timestamp msg = now /\
    UniqueID msg = if system then ""
                   else sha256hex (Username msg ++ Timestamp msg ++ Content msg).
Proof.
  unfold addMessage. eexists. split; [reflexivity|].
  by destruct system.
Qed.

Lemma addMessage_others `{Externals} now session message system g :
  onlineUsers (addMessage now session message system g) = onlineUsers g /\
  userVotes (addMessage now session message system g) = userVotes g.
Proof. done. Qed.

Lemma GotoBottom_returns v : 0 <= vpHeight v -> GotoBottom v = Returned v.
Proof.
  intros Hv. unfold GotoBottom. by destruct (Z.ltb_spec (vpHeight v) 0); [lia|].
Qed.

Lemma GotoBottom_panics v : vpHeight v < 0 -> GotoBottom v = Panicked.
Proof.
  intros Hv. unfold GotoBottom. by destruct (Z.ltb_spec (vpHeight v) 0); [|lia].
Qed.

Lemma Update_KeyEnter_input `{Externals} fuel now str m g :
  isSelectMode m = false ->
  let m1 := updateWidgets (KeyMsg KeyEnter str) m in
  let text := Value (textarea m1) in
  Update fuel now (KeyMsg KeyEnter str) m g =
  if String.eqb text ""
  then Returned (m1, Batch, g)
  else if vpHeight (viewport m1) <? 0
  then Panicked
  else
    let g' := addMessage now (Some (session m)) text false g in
    Returned
      (setTextarea (Reset (textarea m1))
         (setViewport
            (SetContent (formatMessages m1 (getMessages g')) (viewport m1)) m1),
       Batch, g').
Proof.
  intros Hmode m1 text.
  destruct (updateWidgets_fields (KeyMsg KeyEnter str) m) as (Hm & _ & _ & Hs).
  unfold Update; cbv zeta. fold m1. fold m1 in Hm, Hs. rewrite Hm, Hmode, Hs.
  fold text. clearbody text. clearbody m1.
  destruct (String.eqb text ""); simpl; [done|].
  unfold GotoBottom. simpl. by destruct (vpHeight (viewport m1) <? 0).
Qed.

(** C5, as the code has it. [addMessage] checks nothing and has no error
    result: every call, for a system message or not, appends exactly one
    message that carries the content as given, whatever its length, so the
    log grows by one.  The only length limit in the program is the
    [CharLimit] of 280 on the text area of every model that [teaHandler]
    returns. *)
Theorem addMessage_never_rejects `{Externals} (now : string)
    (session : option Session) (message : string) (system : bool)
    (g : Globals) :
  (exists msg,
     chatMessages (addMessage now session message system g)
       = (chatMessages g ++ [msg])%list /\
     Content msg = message /\ System msg = system) /\
  len (chatMessages (addMessage now session message system g))
    = len (chatMessages g) + 1 /\
  (forall s w h t m g',
     teaHandler now s w h t g = Returned (m, g') ->
     CharLimit (textarea m) = 280).
Proof.
  split; [|split].
  - destruct (addMessage_appends now session message system g)
      as (msg & Hlog & Hc & Hs & _).
    by exists msg.
  - unfold addMessage, len. simpl. rewrite length_app. simpl. lia.
  - intros s w h t m g'. unfold teaHandler, GotoBottom. simpl.
    destruct (GoInt.sub h 5 <? 0); [done|]. by intros [= <- _].
Qed.

Lemma addMessage_never_rejects_witness :
  chatMessages (addMessage (H := plainExternals) "t1" (Some alice) longContent
                           false emptyGlobals) <> [] /\
  match teaHandler (H := plainExternals) "t1" alice 80 24 "xterm"
                   emptyGlobals with
  | Returned (m, _) => CharLimit (textarea m) = 280
  | _ => False
  end.
Proof.
  destruct (addMessage_never_rejects (H := plainExternals) "t1" (Some alice)
              longContent false emptyGlobals)
    as ((msg & Hlog & _) & _ & Hlimit).
  split.
  - rewrite Hlog. discriminate.
  - destruct (teaHandler (H := plainExternals) "t1" alice 80 24 "xterm"
                         emptyGlobals) as [[m g']| |] eqn:Hcall.
    + exact (Hlimit alice 80 24 "xterm" m g' Hcall).
    + vm_compute in Hcall. discriminate.
    + vm_compute in Hcall. discriminate.
Defined.

(** A call with 281 characters of content, and one with none: each is
    appended. *)
Lemma addMessage_accepts_invalid_content :
  String.length longContent = 281%nat /\
  length (chatMessages emptyGlobals) = 0%nat /\
  length (chatMessages (addMessage (H := plainExternals) "t1" (Some alice)
                          longContent false emptyGlobals)) = 1%nat /\
  length (chatMessages (addMessage (H := plainExternals) "t1" (Some alice)
                          "" false emptyGlobals)) = 1%nat.
Proof. vm_compute. by repeat split. Qed.

(** ** Submitting *)

(** C6, as the code has it. On the enter key in input mode the text is the
    value of the text area as the widget leaves it after it has seen the
    key; it is not trimmed.  When that text is non-empty, white space or
    not, and the viewport height is not negative, so that the handler
    returns, a message has been appended that is not a system message and
    carries the text verbatim and the session's user name, the viewport is
    set to the rendering of a fresh copy of the log and the text area is
    cleared. *)
Theorem submit_appends_untrimmed `{Externals} (fuel : nat) (now str : string)
    (m : model) (g : Globals) :
  isSelectMode m = false ->
  let m1 := updateWidgets (KeyMsg KeyEnter str) m in
  let text := Value (textarea m1) in
  text <> "" ->
  0 <= vpHeight (viewport m1) ->
  exists m' g',
    Update fuel now (KeyMsg KeyEnter str) m g = Returned (m', Batch, g') /\
    (exists msg,
       chatMessages g' = (chatMessages g ++ [msg])%list /\
       Content msg = text /\
       System msg = false /\
       Username msg = User (session m)) /\
    content (viewport m') = formatMessages m1 (getMessages g') /\
    Value (textarea m') = "" /\
    isSelectMode m' = false.
Proof.
  intros Hmode m1 text Hfull Hheight.
  rewrite Update_KeyEnter_input by done. fold m1. fold text. cbv zeta.
  destruct (updateWidgets_fields (KeyMsg KeyEnter str) m) as (Hm & _).
  fold m1 in Hm. clearbody text. clearbody m1.
  destruct (String.eqb_spec text "") as [Hempty|_]; [done|].
  destruct (Z.ltb_spec (vpHeight (viewport m1)) 0) as [Hneg|_]; [lia|].
  destruct (addMessage_appends now (Some (session m)) text false g)
    as (msg & Hlog & Hc & Hs & _ & _ & Hu & _).
  do 2 eexists. split; [reflexivity|].
  split; [by exists msg|]. simpl. by rewrite Hm, Hmode.
Qed.

Lemma submit_appends_untrimmed_witness :
  exists m' g',
    Update (H := plainExternals) 0 "t1" (KeyMsg KeyEnter "enter")
           (typing " hello ") (mkGlobals [welcome] 1 ∅)
    = Returned (m', Batch, g') /\
    (exists msg,
       chatMessages g' = ([welcome] ++ [msg])%list /\
       Content msg = " hello " ++ newline /\
       System msg = false /\
       Username msg = "alice") /\
    Value (textarea m') = "".
Proof.
  destruct (submit_appends_untrimmed (H := plainExternals) 0 "t1" "enter"
              (typing " hello ") (mkGlobals [welcome] 1 ∅) eq_refl)
    as (m' & g' & Hup & Hmsg & _ & Hval & _).
  - discriminate.
  - vm_compute. discriminate.
  - exists m', g'. split; [exact Hup|]. split; [exact Hmsg|exact Hval].
Defined.

(** A single space typed and submitted, and nothing typed and submitted:
    the trimmed text is empty both times, and yet each time the log grows by
    a message, whose content is what the text area held after the enter
    key. *)
Lemma submit_appends_blank_text :
  spec_trim " " = "" /\
  spec_trim (" " ++ newline) = "" /\
  match Update (H := plainExternals) 0 "t1" (KeyMsg KeyEnter "enter")
               (typing " ") (mkGlobals [welcome] 1 ∅) with
  | Returned (_, _, g') =>
      Content <$> chatMessages g' = [Content welcome; " " ++ newline] /\
      System <$> chatMessages g' = [true; false]
  | _ => False
  end /\
  match Update (H := plainExternals) 0 "t1" (KeyMsg KeyEnter "enter")
               (typing "") (mkGlobals [welcome] 1 ∅) with
  | Returned (_, _, g') =>
      Content <$> chatMessages g' = [Content welcome; newline] /\
      System <$> chatMessages g' = [true; false]
  | _ => False
  end.
Proof. vm_compute. by repeat split. Qed.

(** ** Refresh ticks *)

(** C7, as the code has it. On a refresh tick, when the length of a fresh
    copy of the log differs from [lastMessageCount] and the viewport height
    is not negative, so that the handler returns, the viewport is set to the
    rendering of that copy, [lastMessageCount] becomes that length and
    [selectedMessage] becomes [len-1], the index of the newest message,
    system message or not; the mode is kept.  When the length is the same,
    nothing but the widgets' own update happens: mode, selection and count
    are as before.  The shared state is not touched either way. *)
Theorem refresh_anchors_to_last_message `{Externals} (fuel : nat)
    (now : string) (m : model) (g : Globals) :
  let m1 := updateWidgets messagesUpdatedMsg m in
  let n := len (getMessages g) in
  (n <> lastMessageCount m ->
   0 <= vpHeight (viewport m1) ->
   exists m',
     Update fuel now messagesUpdatedMsg m g = Returned (m', Batch, g) /\
     isSelectMode m' = isSelectMode m /\
     content (viewport m') = formatMessages m1 (getMessages g) /\
     lastMessageCount m' = n /\
     selectedMessage m' = n - 1) /\
  (n = lastMessageCount m ->
   Update fuel now messagesUpdatedMsg m g = Returned (m1, Batch, g) /\
   isSelectMode m1 = isSelectMode m /\
   selectedMessage m1 = selectedMessage m /\
   lastMessageCount m1 = lastMessageCount m).
Proof.
  intros m1 n.
  destruct (updateWidgets_fields messagesUpdatedMsg m) as (Hm & Hs & Hc & _).
  fold m1 in Hm, Hs, Hc.
  unfold Update; cbv zeta. fold m1. fold n. rewrite Hc.
  clearbody n. clearbody m1.
  destruct (Z.eqb_spec n (lastMessageCount m)) as [Hsame|Hdiff]; simpl.
  - split; [done|]. by intros _.
  - split; [|done]. intros _ Hheight.
    unfold GotoBottom. simpl.
    destruct (Z.ltb_spec (vpHeight (viewport m1)) 0) as [Hneg|_]; [lia|].
    eexists. split; [reflexivity|]. done.
Qed.

Lemma refresh_anchors_to_last_message_witness :
  exists m',
    Update (H := plainExternals) 0 "t3" messagesUpdatedMsg inputModel
           (mkGlobals [welcome; hello] 1 ∅)
    = Returned (m', Batch, mkGlobals [welcome; hello] 1 ∅) /\
    lastMessageCount m' = 2 /\
    selectedMessage m' = 1.
Proof.
  destruct (refresh_anchors_to_last_message (H := plainExternals) 0 "t3"
              inputModel (mkGlobals [welcome; hello] 1 ∅))
    as (Hdiff & _).
  destruct Hdiff as (m' & Hup & _ & _ & Hcount & Hsel);
    [discriminate|vm_compute; discriminate|].
  exists m'. split; [exact Hup|]. split; [exact Hcount|exact Hsel].
Defined.

(** A tick after a join notice has arrived: the selection is re-anchored to
    the notice, a system message, not to the user message before it. *)
Lemma refresh_anchors_to_system_message :
  match Update (H := plainExternals) 0 "t3" messagesUpdatedMsg
               (setLastMessageCount 2 (selecting 1))
               (mkGlobals [welcome; hello; joined] 2 ∅) with
  | Returned (m', _, g') =>
      selectedMessage m' = 2 /\
      index (chatMessages g') (selectedMessage m') = Some joined /\
      System joined = true /\
      spec_newestNonSystem (chatMessages g') = Some 1
  | _ => False
  end.
Proof. vm_compute. by repeat split. Qed.

(** ** Message ids *)

(** A user message gets the digest of user name, time stamp and content as
    its id; a system message gets none (the empty string). *)
Lemma addMessage_id `{Externals} now session message system g :
  exists msg,
    chatMessages (addMessage now session message system g)
      = (chatMessages g ++ [msg])%list /\
    UniqueID msg =
      if system then ""
      else generateUniqueMessageID
             (mkMessage (Username msg) (Timestamp msg) (PubKey msg)
                        (Content msg) 0 0 "" false).
Proof.
  unfold addMessage. eexists. split; [reflexivity|]. by destruct system.
Qed.

(** The id depends on nothing but the three fields. *)
Lemma generateUniqueMessageID_deterministic `{Externals} msg1 msg2 :
  Username msg1 = Username msg2 ->
  Timestamp msg1 = Timestamp msg2 ->
  Content msg1 = Content msg2 ->
  generateUniqueMessageID msg1 = generateUniqueMessageID msg2.
Proof. unfold generateUniqueMessageID. by intros -> -> ->. Qed.

(** A vote for the empty id is counted on the first message without id. *)
Lemma voteMessage_empty_id s voteType msg rest g :
  chatMessages g = msg :: rest ->
  UniqueID msg = "" ->
  recorded g (User s) "" = None ->
  voteType <> 0 ->
  exists g',
    voteMessage s "" voteType g = (None, g') /\
    chatMessages g' = addNewVote voteType msg :: rest.
Proof.
  unfold recorded, voteMessage. intros Hlog Hid Hrec Hvote.
  rewrite Hlog. simpl. rewrite Hid. simpl.
  destruct (userVotes g !! User s) as [votes|] eqn:Hu; simpl in *.
  - rewrite Hu. simpl. rewrite Hrec. simpl.
    destruct voteType; [done| |]; by eexists.
  - rewrite lookup_insert_eq. simpl. rewrite lookup_empty. simpl.
    destruct voteType; [done| |]; by eexists.
Qed.

(** C8, the code at the failing input. The server has started and alice has
    connected, so the log holds the welcome line and her join notice, both
    system messages without id.  She presses tab and then [u]: the vote goes
    to [voteMessage] with the empty id, which matches the welcome line, and
    the upvote counter of that system message becomes 1. *)
Theorem vote_changes_system_message_counter :
  match teaHandler (H := plainExternals) "t1" alice 80 24 "xterm"
                   (startGlobals (H := plainExternals) "t0") with
  | Returned (m, g) =>
      (fun x => (System x, UniqueID x, Upvotes x)) <$> chatMessages g
        = [(true, "", 0); (true, "", 0)] /\
      match run (H := plainExternals) 2
                [("t2", KeyMsg KeyTab "tab"); ("t3", KeyMsg KeyRunes "u")]
                m g with
      | Returned (m', g') =>
          (fun x => (System x, UniqueID x, Upvotes x)) <$> chatMessages g'
            = [(true, "", 1); (true, "", 0)] /\
          err m' = None
      | _ => False
      end
  | _ => False
  end.
Proof. vm_compute. by repeat split. Qed.

(** ** The scenarios of the specification, run on the model *)

(** Scenario A: alice submits [hello]; the text area has added the line
    break of the enter key. *)
Example scenario_submit :
  match Update (H := plainExternals) 0 "t1" (KeyMsg KeyEnter "enter")
               (typing "hello") emptyGlobals with
  | Returned (_, _, g') =>
      (fun x => (Username x, Content x, Upvotes x, Downvotes x, System x))
        <$> chatMessages g'
      = [("alice", "hello" ++ newline, 0, 0, false)]
  | _ => False
  end.
Proof. vm_compute. reflexivity. Qed.

(** Scenario B: an upvote, the same upvote again, then a downvote. *)
Example scenario_votes :
  let bob := mkSession "bob" None in
  let id := UniqueID hello in
  let '(e1, g1) := voteMessage bob id 1 (mkGlobals [hello] 1 ∅) in
  let '(e2, g2) := voteMessage bob id 1 g1 in
  let '(e3, g3) := voteMessage bob id (-1) g2 in
  (e1, e2, e3) = (None, Some DuplicateVoteError, None) /\
  chatMessages g1 = [setUpvotes 1 hello] /\
  chatMessages g2 = [setUpvotes 1 hello] /\
  chatMessages g3 = [setDownvotes 1 hello].
Proof. vm_compute. by repeat split. Qed.

(** Scenario C: entering selection mode on [sys, A, sys, B] selects B, and
    one press of the up key moves to A. *)
Example scenario_navigation :
  match run (H := plainExternals) 4
            [("t4", KeyMsg KeyTab "tab"); ("t5", KeyMsg KeyUp "up")]
            inputModel (mkGlobals [welcome; hello; joined; again] 1 ∅) with
  | Returned (m', _) => isSelectMode m' = true /\ selectedMessage m' = 1
  | _ => False
  end.
Proof. vm_compute. by split. Qed.

(** An empty log cannot occur once [main] has run; on the model, the up key
    with nothing in the log is an index out of range. *)
Example navigation_on_empty_log :
  run (H := plainExternals) 4
      [("t4", KeyMsg KeyTab "tab"); ("t5", KeyMsg KeyUp "up")]
      inputModel emptyGlobals = Panicked.
Proof. vm_compute. reflexivity. Qed.

(** * Further properties of the code *)

(** ** The three ways [voteMessage] can end *)

Lemma voteLoop_None messageID prev voteType msgs :
  voteLoop messageID prev voteType msgs = None <->
  messageID ∉ UniqueID <$> msgs.
Proof.
  induction msgs as [|msg msgs IH]; simpl.
  - split; [intros _; apply not_elem_of_nil|done].
  - rewrite not_elem_of_cons.
    destruct (String.eqb_spec (UniqueID msg) messageID) as [Heq|Hne].
    + split; [done|]. by intros [Hne _].
    + destruct (voteLoop messageID prev voteType msgs); simpl.
      * split; [done|]. intros [_ Hnot]. by apply IH in Hnot.
      * split; [|done]. intros _. split; [done|]. by apply IH.
Qed.

Lemma voteLoop_Some messageID prev voteType msgs msgs' :
  voteLoop messageID prev voteType msgs = Some msgs' ->
  exists pre msg post,
    msgs = (pre ++ msg :: post)%list /\
    Forall (fun x => UniqueID x <> messageID) pre /\
    UniqueID msg = messageID /\
    msgs' = (pre ++ addNewVote voteType (removePreviousVote prev msg)
                 :: post)%list.
Proof.
  revert msgs'. induction msgs as [|msg msgs IH]; intros msgs'; simpl; [done|].
  destruct (String.eqb_spec (UniqueID msg) messageID) as [Heq|Hne].
  - intros [= <-]. by exists [], msg, msgs.
  - destruct (voteLoop messageID prev voteType msgs) as [rest|]; [|done].
    simpl. intros [= <-].
    destruct (IH rest eq_refl) as (pre & m0 & post & -> & Hpre & Hid & ->).
    exists (msg :: pre), m0, post. split; [done|].
    split; [by constructor|]. done.
Qed.

(** The map of vote records after the first statements of [voteMessage]. *)
Lemma voteMessage_cases s messageID voteType g :
  let votes :=
    match userVotes g !! User s with
    | Some _ => userVotes g
    | None => <[User s := ∅]> (userVotes g)
    end in
  let prev := recorded g (User s) messageID in
  (default 0 prev = voteType /\
   voteMessage s messageID voteType g
   = (Some DuplicateVoteError, setUserVotes votes g)) \/
  (default 0 prev <> voteType /\
   (messageID ∉ UniqueID <$> chatMessages g) /\
   voteMessage s messageID voteType g
   = (Some MessageNotFoundError, setUserVotes votes g)) \/
  (default 0 prev <> voteType /\
   exists pre msg post,
     chatMessages g = (pre ++ msg :: post)%list /\
     Forall (fun x => UniqueID x <> messageID) pre /\
     UniqueID msg = messageID /\
     voteMessage s messageID voteType g
     = (None,
        mkGlobals
          (pre ++ addNewVote voteType (removePreviousVote prev msg) :: post)
          (onlineUsers g)
          (<[User s := <[messageID := voteType]>
                         (default ∅ (userVotes g !! User s))]>
             (userVotes g)))).
Proof.
  intros votes prev.
  assert (Hvotes : default ∅ (votes !! User s)
                   = default ∅ (userVotes g !! User s)).
  { unfold votes. destruct (userVotes g !! User s) eqn:Hu.
    - by rewrite Hu.
    - by rewrite lookup_insert_eq. }
  assert (Hprev : default ∅ (userVotes g !! User s) !! messageID = prev).
  { unfold prev, recorded. by destruct (userVotes g !! User s). }
  assert (Hins : forall x, <[User s := x]> votes = <[User s := x]> (userVotes g)).
  { intros x. unfold votes. destruct (userVotes g !! User s); [done|].
    apply insert_insert_eq. }
  unfold voteMessage. fold votes. rewrite Hvotes, Hprev.
  destruct (Z.eqb_spec (default 0 prev) voteType) as [Hdup|Hnew]; [by left|].
  right.
  destruct (voteLoop messageID prev voteType (chatMessages g)) as [msgs|] eqn:Hl.
  - right. split; [done|].
    destruct (voteLoop_Some _ _ _ _ _ Hl) as (pre & msg & post & Hg & Hpre & Hid & ->).
    exists pre, msg, post. by rewrite Hins.
  - left. split; [done|]. split; [|done]. by apply voteLoop_None in Hl.
Qed.

(** X1. Which of its three results [voteMessage] gives is decided by two
    tests, in this order: the vote type equals what is recorded for the
    voter on the id (a missing record reading as 0), then the id occurs in
    the log. *)
Theorem voteMessage_outcome (s : Session) (messageID : string) (voteType : Z)
    (g : Globals) :
  fst (voteMessage s messageID voteType g) =
  if default 0 (recorded g (User s) messageID) =? voteType
  then Some DuplicateVoteError
  else if bool_decide (messageID ∈ UniqueID <$> chatMessages g)
       then None
       else Some MessageNotFoundError.
Proof.
  destruct (voteMessage_cases s messageID voteType g)
    as [[Hdup ->] | [(Hnew & Hout & ->) | (Hnew & pre & msg & post & Hg & _ & Hid & ->)]];
    simpl.
  - by rewrite Hdup, Z.eqb_refl.
  - apply Z.eqb_neq in Hnew. rewrite Hnew. by rewrite bool_decide_eq_false_2.
  - apply Z.eqb_neq in Hnew. rewrite Hnew.
    rewrite bool_decide_eq_true_2; [done|].
    rewrite Hg, fmap_app, fmap_cons, Hid. set_solver.
Qed.

Lemma recorded_new_voter g username u i :
  userVotes g !! username = None ->
  recorded (setUserVotes (<[username := ∅]> (userVotes g)) g) u i
  = recorded g u i.
Proof.
  intros Hnone. unfold recorded. simpl.
  destruct (decide (username = u)) as [<-|Hne].
  - by rewrite lookup_insert_eq, Hnone.
  - by rewrite lookup_insert_ne.
Qed.

(** X2. A refused vote, of either kind, has no effect one can observe: the
    log, the presence count and every voter's record for every id are as
    before. *)
Theorem voteMessage_error_keeps_state (s : Session) (messageID : string)
    (voteType : Z) (g : Globals) (e : string) :
  fst (voteMessage s messageID voteType g) = Some e ->
  let g' := snd (voteMessage s messageID voteType g) in
  chatMessages g' = chatMessages g /\
  onlineUsers g' = onlineUsers g /\
  forall u i, recorded g' u i = recorded g u i.
Proof.
  intros Herr g'. unfold g'. clear g'.
  assert (Hsame : forall votes,
            votes = match userVotes g !! User s with
                    | Some _ => userVotes g
                    | None => <[User s := ∅]> (userVotes g)
                    end ->
            forall u i, recorded (setUserVotes votes g) u i = recorded g u i).
  { intros votes -> u i. destruct (userVotes g !! User s) eqn:Hu.
    - by rewrite setUserVotes_same.
    - by apply recorded_new_voter. }
  destruct (voteMessage_cases s messageID voteType g)
    as [[_ Hv] | [(_ & _ & Hv) | (_ & pre & msg & post & _ & _ & _ & Hv)]];
    rewrite Hv in *; simpl in *; [| |done].
  - split; [done|]. split; [done|]. by apply Hsame.
  - split; [done|]. split; [done|]. by apply Hsame.
Qed.

Lemma voteMessage_error_keeps_state_witness :
  let g' := snd (voteMessage alice "no such id" 1 upvotedGlobals) in
  chatMessages g' = chatMessages upvotedGlobals /\
  onlineUsers g' = onlineUsers upvotedGlobals /\
  forall u i, recorded g' u i = recorded upvotedGlobals u i.
Proof.
  apply (voteMessage_error_keeps_state alice "no such id" 1 upvotedGlobals
           MessageNotFoundError).
  vm_compute. reflexivity.
Defined.

(** ** What a vote changes *)

Lemma addNewVote_first d msg :
  GoInt.min_int <= counterOf d msg < GoInt.max_int ->
  addNewVote (voteTypeOf d) msg = counted d msg.
Proof.
  intros Hroom. unfold addNewVote, counted.
  destruct d; simpl in *; by rewrite GoIntFacts.incr_exact.
Qed.

(** X3. The first vote of a voter on a message (the first of the log with
    its id, the counter with room in [int]) succeeds, adds exactly one to the
    counter of its direction, leaves everything else of the log as it is and
    is recorded. *)
Theorem voteMessage_first_vote (s : Session) (d : Direction)
    (pre post : list Message) (msg : Message) (g : Globals) :
  recorded g (User s) (UniqueID msg) = None ->
  chatMessages g = (pre ++ msg :: post)%list ->
  Forall (fun x => UniqueID x <> UniqueID msg) pre ->
  GoInt.min_int <= counterOf d msg < GoInt.max_int ->
  exists g',
    voteMessage s (UniqueID msg) (voteTypeOf d) g = (None, g') /\
    chatMessages g' = (pre ++ counted d msg :: post)%list /\
    recorded g' (User s) (UniqueID msg) = Some (voteTypeOf d) /\
    onlineUsers g' = onlineUsers g.
Proof.
  intros Hrec Hlog Hpre Hroom.
  destruct (voteMessage_cases s (UniqueID msg) (voteTypeOf d) g)
    as [[Hdup _] | [(_ & Hout & _) | (_ & pre' & m0 & post' & _ & _ & _ & Hv)]].
  - rewrite Hrec in Hdup. by destruct d.
  - exfalso. apply Hout. rewrite Hlog, fmap_app, fmap_cons.
    apply elem_of_app. right. apply elem_of_cons. by left.
  - clear Hv pre' m0 post'.
    unfold voteMessage, recorded in *.
    assert (Hprev : default ∅
              (match userVotes g !! User s with
               | Some _ => userVotes g
               | None => <[User s := ∅]> (userVotes g)
               end !! User s) !! UniqueID msg = None).
    { destruct (userVotes g !! User s) eqn:Hu.
      - by rewrite Hu.
      - by rewrite lookup_insert_eq. }
    cbv zeta. rewrite Hprev. change (default 0 None) with 0.
    assert (Hd : (0 =? voteTypeOf d) = false) by (by destruct d).
    rewrite Hd, Hlog, (voteLoop_first _ _ _ _ _ _ Hpre eq_refl).
    simpl removePreviousVote. rewrite (addNewVote_first _ _ Hroom).
    eexists. split; [reflexivity|]. simpl.
    rewrite lookup_insert_eq. simpl. by rewrite lookup_insert_eq.
Qed.

Lemma voteMessage_first_vote_witness :
  exists g',
    voteMessage (mkSession "bob" None) (UniqueID hello) (voteTypeOf Down)
                (mkGlobals [welcome; hello; joined] 2 ∅) = (None, g') /\
    chatMessages g' = ([welcome] ++ counted Down hello :: [joined])%list /\
    recorded g' "bob" (UniqueID hello) = Some (voteTypeOf Down) /\
    onlineUsers g' = 2.
Proof.
  apply (voteMessage_first_vote (mkSession "bob" None) Down [welcome] [joined]
           hello (mkGlobals [welcome; hello; joined] 2 ∅)).
  - reflexivity.
  - reflexivity.
  - repeat constructor. discriminate.
  - unfold GoInt.min_int, GoInt.max_int. simpl. lia.
Defined.

Lemma recorded_after_error s g u i :
  recorded
    (setUserVotes
       match userVotes g !! User s with
       | Some _ => userVotes g
       | None => <[User s := ∅]> (userVotes g)
       end g) u i
  = recorded g u i.
Proof.
  destruct (userVotes g !! User s) eqn:Hu.
  - by rewrite setUserVotes_same.
  - by apply recorded_new_voter.
Qed.

(** X4. Whatever its result, a call of [voteMessage] leaves the records of
    all other voters, and the caller's records for all other ids, as they
    are, and does not touch the presence count. *)
Theorem voteMessage_other_records (s : Session) (messageID : string)
    (voteType : Z) (g : Globals) (u i : string) :
  u <> User s \/ i <> messageID ->
  recorded (snd (voteMessage s messageID voteType g)) u i = recorded g u i /\
  onlineUsers (snd (voteMessage s messageID voteType g)) = onlineUsers g.
Proof.
  intros Hother.
  destruct (voteMessage_cases s messageID voteType g)
    as [[_ ->] | [(_ & _ & ->) | (_ & pre & msg & post & _ & _ & _ & ->)]];
    simpl.
  - split; [apply recorded_after_error|done].
  - split; [apply recorded_after_error|done].
  - split; [|done]. unfold recorded. simpl.
    destruct (decide (u = User s)) as [->|Hu].
    + destruct Hother as [Hu|Hi]; [done|].
      rewrite lookup_insert_eq. simpl. rewrite lookup_insert_ne by done.
      by destruct (userVotes g !! User s).
    + by rewrite lookup_insert_ne.
Qed.

Lemma voteMessage_other_records_witness :
  recorded (snd (voteMessage (mkSession "bob" None) (UniqueID hello) 1
                   upvotedGlobals)) "alice" (UniqueID hello)
  = recorded upvotedGlobals "alice" (UniqueID hello) /\
  onlineUsers (snd (voteMessage (mkSession "bob" None) (UniqueID hello) 1
                      upvotedGlobals)) = onlineUsers upvotedGlobals.
Proof.
  apply (voteMessage_other_records (mkSession "bob" None) (UniqueID hello) 1
           upvotedGlobals "alice" (UniqueID hello)).
  left. discriminate.
Defined.

Lemma fixedFields_vote voteType prev msg :
  fixedFields (addNewVote voteType (removePreviousVote prev msg))
  = fixedFields msg.
Proof.
  unfold addNewVote, removePreviousVote.
  destruct prev as [p|]; [destruct (0 <? p), (p <? 0)|];
    by destruct (0 <? voteType).
Qed.

(** The log after any call: the same messages in the same order, equal in
    every field but the counters, and equal altogether except at the first
    message that has the voted id. *)
Lemma voteMessage_log s messageID voteType g :
  let g' := snd (voteMessage s messageID voteType g) in
  fixedFields <$> chatMessages g' = fixedFields <$> chatMessages g /\
  forall (i : nat) (msg : Message),
    chatMessages g !! i = Some msg ->
    UniqueID msg <> messageID \/
    (exists (j : nat) (m0 : Message),
       (j < i)%nat /\ chatMessages g !! j = Some m0 /\ UniqueID m0 = messageID) ->
    chatMessages g' !! i = Some msg.
Proof.
  intros g'. unfold g'. clear g'.
  destruct (voteMessage_cases s messageID voteType g)
    as [[_ ->] | [(_ & _ & ->) | (_ & pre & m1 & post & Hg & Hpre & Hid & ->)]];
    simpl; [done|done|].
  rewrite Hg. split.
  - by rewrite !fmap_app, !fmap_cons, fixedFields_vote.
  - intros i msg Hi Hwhy.
    destruct (Nat.lt_total i (length pre)) as [Hlt|[Heq|Hgt]].
    + rewrite lookup_app_l in * by done. done.
    + subst i. rewrite list_lookup_middle in Hi by done.
      injection Hi as <-. exfalso.
      destruct Hwhy as [Hne|(j & m0 & Hj & Hm0 & Hid0)]; [done|].
      rewrite lookup_app_l in Hm0 by done.
      rewrite Forall_lookup in Hpre. by apply (Hpre j m0).
    + rewrite lookup_app_r in * by lia.
      destruct (i - length pre)%nat as [|k] eqn:Hk; [lia|]. done.
Qed.

(** X5. [voteMessage] never adds, removes or reorders messages and never
    changes a field of a message other than its two counters; and a message
    keeps its counters too unless it is the first message of the log with
    the voted id. *)
Theorem voteMessage_changes_first_only (s : Session) (messageID : string)
    (voteType : Z) (g : Globals) (i : nat) (msg : Message) :
  chatMessages g !! i = Some msg ->
  UniqueID msg <> messageID \/
  (exists (j : nat) (m0 : Message),
     (j < i)%nat /\ chatMessages g !! j = Some m0 /\ UniqueID m0 = messageID) ->
  let g' := snd (voteMessage s messageID voteType g) in
  fixedFields <$> chatMessages g' = fixedFields <$> chatMessages g /\
  length (chatMessages g') = length (chatMessages g) /\
  chatMessages g' !! i = Some msg.
Proof.
  intros Hi Hwhy g'.
  destruct (voteMessage_log s messageID voteType g) as [Hfix Hsame].
  fold g' in Hfix, Hsame. split; [done|]. split.
  - apply (f_equal length) in Hfix. by rewrite !length_fmap in Hfix.
  - by apply Hsame.
Qed.

Lemma voteMessage_changes_first_only_witness :
  let g' := snd (voteMessage alice (UniqueID hello) 1
                   (mkGlobals [welcome; hello; hello] 1 ∅)) in
  fixedFields <$> chatMessages g' = fixedFields <$> [welcome; hello; hello] /\
  length (chatMessages g') = 3%nat /\
  chatMessages g' !! 2%nat = Some hello.
Proof.
  apply (voteMessage_changes_first_only alice (UniqueID hello) 1
           (mkGlobals [welcome; hello; hello] 1 ∅) 2 hello).
  - reflexivity.
  - right. exists 1%nat, hello. split; [lia|]. split; reflexivity.
Defined.

(** X6. Message ids are not unique: a message sent again by the same
    session with the same text within the same second of the clock is an
    equal message with an equal id, and since the loop of [voteMessage]
    stops at the first match, no call of [voteMessage] ever changes the
    second copy. *)
Theorem repeated_message_never_voted `{Externals} (now : string)
    (session : option Session) (text : string) (g : Globals)
    (s : Session) (messageID : string) (voteType : Z) :
  let g2 := addMessage now session text false
              (addMessage now session text false g) in
  exists msg,
    chatMessages g2 = (chatMessages g ++ [msg; msg])%list /\
    System msg = false /\
    chatMessages (snd (voteMessage s messageID voteType g2))
      !! S (length (chatMessages g)) = Some msg.
Proof.
  intros g2.
  destruct (addMessage_appends now session text false g)
    as (msg & Hlog & _ & Hsys & _).
  assert (Hlog2 : chatMessages g2 = (chatMessages g ++ [msg; msg])%list).
  { unfold g2, addMessage in *. simpl in *.
    apply app_inv_head in Hlog. injection Hlog as <-.
    by rewrite <- app_assoc. }
  exists msg. split; [done|]. split; [done|].
  assert (Hlast : chatMessages g2 !! S (length (chatMessages g)) = Some msg).
  { rewrite Hlog2, lookup_app_r by lia.
    by replace (S (length (chatMessages g)) - length (chatMessages g))%nat
      with 1%nat by lia. }
  destruct (voteMessage_log s messageID voteType g2) as [_ Hsame].
  apply Hsame; [done|].
  destruct (decide (UniqueID msg = messageID)) as [Heq|Hne]; [right|by left].
  exists (length (chatMessages g)), msg. split; [lia|]. split; [|done].
  rewrite Hlog2, lookup_app_r by lia. by rewrite Nat.sub_diag.
Qed.

(** ** The shared state under [Update] *)

(** The only ways in which [Update] changes the shared state. *)
Lemma Update_shared_state `{Externals} fuel now msg m g m' c g' :
  Update fuel now msg m g = Returned (m', c, g') ->
  g' = g \/
  (g' = decrementUsers g /\
   exists str, msg = KeyMsg KeyCtrlC str \/ msg = KeyMsg KeyEsc str) \/
  (isSelectMode m = false /\
   exists str text,
     msg = KeyMsg KeyEnter str /\
     text <> "" /\
     g' = addMessage now (Some (session m)) text false g) \/
  (isSelectMode m = true /\
   exists str d selectedMsg,
     msg = KeyMsg KeyRunes str /\
     index (chatMessages g) (selectedMessage m) = Some selectedMsg /\
     g' = snd (voteMessage (session m) (UniqueID selectedMsg) (voteTypeOf d) g)).
Proof.
  destruct (updateWidgets_fields msg m) as (Hm & Hs & Hc & Hsess).
  unfold Update; cbv zeta.
  remember (updateWidgets msg m) as m1 eqn:Hm1. clear Hm1.
  assert (Hvote : forall d str,
            msg = KeyMsg KeyRunes str ->
            isSelectMode m = true ->
            voteSelected (voteTypeOf d) m1 g = Returned (m', c, g') ->
            g' = g \/
            exists selectedMsg,
              index (chatMessages g) (selectedMessage m) = Some selectedMsg /\
              g' = snd (voteMessage (session m) (UniqueID selectedMsg)
                          (voteTypeOf d) g)).
  { intros d str _ _. unfold voteSelected. rewrite Hs, Hsess.
    destruct (selectedMessage m <? len (chatMessages g));
      [|intros [= _ _ <-]; by left].
    destruct (index (chatMessages g) (selectedMessage m)) as [sm|]; [|done].
    destruct (voteMessage (session m) (UniqueID sm) (voteTypeOf d) g)
      as [[e|] g1] eqn:Hv; intros [= _ _ <-]; right; exists sm;
      by rewrite Hv. }
  destruct msg as [w h|k str| |e|].
  - intros [= _ _ <-]. by left.
  - destruct k.
    + intros [= _ _ <-]. right. left. split; [done|]. exists str. by left.
    + intros [= _ _ <-]. right. left. split; [done|]. exists str. by right.
    + simpl. destruct (negb (isSelectMode m1)); intros [= _ _ <-]; by left.
    + rewrite Hm, Hsess.
      destruct (isSelectMode m) eqn:Hmode; simpl;
        [intros [= _ _ <-]; by left|].
      destruct (String.eqb_spec (Value (textarea m1)) "") as [He|Hne]; simpl;
        [intros [= _ _ <-]; by left|].
      destruct (GotoBottom _); [|done|done].
      intros [= _ _ <-]. right. right. left. split; [done|].
      by exists str, (Value (textarea m1)).
    + rewrite Hm. destruct (isSelectMode m); [|intros [= _ _ <-]; by left].
      destruct (navigateUp fuel (chatMessages g) (selectedMessage m1));
        [|done|done].
      intros [= _ _ <-]. by left.
    + rewrite Hm. destruct (isSelectMode m); [|intros [= _ _ <-]; by left].
      destruct (navigateDown fuel (chatMessages g) (selectedMessage m1));
        [|done|done].
      intros [= _ _ <-]. by left.
    + rewrite Hm. destruct (isSelectMode m) eqn:Hmode;
        [|intros [= _ _ <-]; by left].
      destruct (String.eqb str "u" || String.eqb str "U").
      { intros Hv. destruct (Hvote Up str eq_refl eq_refl Hv)
          as [->|(sm & Hsm & ->)]; [by left|].
        right. right. right. split; [done|]. by exists str, Up, sm. }
      destruct (String.eqb str "d" || String.eqb str "D").
      { intros Hv. destruct (Hvote Down str eq_refl eq_refl Hv)
          as [->|(sm & Hsm & ->)]; [by left|].
        right. right. right. split; [done|]. by exists str, Down, sm. }
      intros [= _ _ <-]. by left.
    + rewrite Hm. destruct (isSelectMode m); intros [= _ _ <-]; by left.
  - destruct (negb (len (getMessages g) =? lastMessageCount m1));
      [destruct (GotoBottom _); [|done|done]|]; intros [= _ _ <-]; by left.
  - intros [= _ _ <-]. by left.
  - intros [= _ _ <-]. by left.
Qed.

Lemma decrementUsers_log g : chatMessages (decrementUsers g) = chatMessages g.
Proof. unfold decrementUsers. by destruct (0 <? onlineUsers g). Qed.

Lemma Update_log_prefix `{Externals} fuel now msg m g m' c g' :
  Update fuel now msg m g = Returned (m', c, g') ->
  fixedFields <$> chatMessages g `prefix_of` fixedFields <$> chatMessages g' /\
  (length (chatMessages g) <= length (chatMessages g')
   <= S (length (chatMessages g)))%nat.
Proof.
  intros Hup.
  destruct (Update_shared_state _ _ _ _ _ _ _ _ Hup)
    as [->|[[-> _]|[(_ & str & text & _ & _ & ->)
                   |(_ & str & d & sm & _ & _ & ->)]]].
  - split; [done|lia].
  - rewrite decrementUsers_log. split; [done|lia].
  - unfold addMessage. simpl. rewrite fmap_app, length_app. simpl.
    split; [by eexists|lia].
  - destruct (voteMessage_log (session m) (UniqueID sm) (voteTypeOf d) g)
      as [Hfix _].
    rewrite Hfix. split; [done|].
    apply (f_equal length) in Hfix. rewrite !length_fmap in Hfix. lia.
Qed.

(** X7. The log is append-only under the controller: whatever runtime
    messages a connection handles, the messages that were in the log are
    still there, in the same order and with the same user name, time stamp,
    key digest, content, id and system flag; only counters may differ, and
    the log has grown by at most one message per runtime message. *)
Theorem log_append_only `{Externals} (fuel : nat)
    (events : list (string * Msg)) (m : model) (g : Globals) (m' : model)
    (g' : Globals) :
  run fuel events m g = Returned (m', g') ->
  fixedFields <$> chatMessages g `prefix_of` fixedFields <$> chatMessages g' /\
  (length (chatMessages g) <= length (chatMessages g')
   <= length (chatMessages g) + length events)%nat.
Proof.
  revert m g. induction events as [|[now msg] events IH]; intros m g; simpl.
  - intros [= _ <-]. split; [done|lia].
  - destruct (Update fuel now msg m g) as [[[m1 c] g1]| |] eqn:Hup; [|done|done].
    destruct (Update_log_prefix _ _ _ _ _ _ _ _ Hup) as [Hpre Hlen].
    assert (Hrest : run fuel events m1 g1 = Returned (m', g') ->
              fixedFields <$> chatMessages g
                `prefix_of` fixedFields <$> chatMessages g' /\
              (length (chatMessages g) <= length (chatMessages g')
               <= length (chatMessages g) + S (length events))%nat).
    { intros Hrun. destruct (IH _ _ Hrun) as [Hpre' Hlen'].
      split; [by etrans|lia]. }
    destruct c; [|done|done].
    intros [= <- <-]. split; [done|lia].
Qed.

Lemma log_append_only_witness :
  exists m' g',
    run (H := plainExternals) 4
        [("t4", KeyMsg KeyEnter "enter"); ("t5", KeyMsg KeyTab "tab");
         ("t6", KeyMsg KeyRunes "u")]
        (typing "again") (mkGlobals [welcome; hello] 1 ∅)
    = Returned (m', g') /\
    fixedFields <$> [welcome; hello]
      `prefix_of` fixedFields <$> chatMessages g' /\
    (2 <= length (chatMessages g') <= 2 + 3)%nat.
Proof.
  eexists _, _. split; [vm_compute; reflexivity|].
  eapply (log_append_only (H := plainExternals) 4
            [("t4", KeyMsg KeyEnter "enter"); ("t5", KeyMsg KeyTab "tab");
             ("t6", KeyMsg KeyRunes "u")]
            (typing "again") (mkGlobals [welcome; hello] 1 ∅)).
  vm_compute. reflexivity.
Defined.

(** X8. Key presses respect the mode.  In input mode only the enter key and
    the two quit keys can change the shared state, so typing [u] or [d]
    never votes; in selection mode only the rune keys and the two quit keys
    can, so the enter key never posts. *)
Theorem keys_respect_mode `{Externals} (fuel : nat) (now : string)
    (k : KeyType) (str : string) (m : model) (g : Globals) :
  k <> KeyCtrlC -> k <> KeyEsc ->
  (if isSelectMode m then k <> KeyRunes else k <> KeyEnter) ->
  match Update fuel now (KeyMsg k str) m g with
  | Returned (_, _, g') => g' = g
  | _ => True
  end.
Proof.
  intros Hc He Hmode.
  destruct (Update fuel now (KeyMsg k str) m g) as [[[m' c] g']| |] eqn:Hup;
    [|done|done].
  destruct (Update_shared_state _ _ _ _ _ _ _ _ Hup)
    as [->|[[_ [s0 [[= -> _]|[= -> _]]]]
           |[(Hm & s0 & text & [= -> _] & _)
            |(Hm & s0 & d & sm & [= -> _] & _)]]];
    try done; by rewrite Hm in Hmode.
Qed.

Lemma keys_respect_mode_witness :
  match Update (H := plainExternals) 2 "t4" (KeyMsg KeyRunes "u")
               (typing "yo") (mkGlobals [welcome; hello] 1 ∅) with
  | Returned (_, _, g') => g' = mkGlobals [welcome; hello] 1 ∅
  | _ => True
  end.
Proof.
  apply (keys_respect_mode (H := plainExternals) 2 "t4" KeyRunes "u"
           (typing "yo") (mkGlobals [welcome; hello] 1 ∅)).
  - discriminate.
  - discriminate.
  - simpl. discriminate.
Defined.

(** ** Votes cast from the controller *)



(** ** No index out of range *)

Lemma voteMessage_length s messageID voteType g :
  len (chatMessages (snd (voteMessage s messageID voteType g)))
  = len (chatMessages g).
Proof.
  destruct (voteMessage_log s messageID voteType g) as [Hfix _].
  apply (f_equal length) in Hfix. rewrite !length_fmap in Hfix.
  unfold len. by rewrite Hfix.
Qed.

Lemma addMessage_length `{Externals} now session message system g :
  len (chatMessages (addMessage now session message system g))
  = len (chatMessages g) + 1.
Proof. unfold addMessage, len. simpl. rewrite length_app. simpl. lia. Qed.

Ltac returned :=
  eexists _, _, _; split; [reflexivity|];
  unfold selectionInLog in *; simpl.

(** With the selection inside the log and a viewport height that is not
    negative, [Update] returns, and the selection is inside the log it
    leaves. *)
Lemma Update_returns `{Externals} fuel now msg m g :
  selectionInLog m g ->
  (length (chatMessages g) <= fuel)%nat ->
  0 <= vpHeight (viewport (updateWidgets msg m)) ->
  exists m' c g',
    Update fuel now msg m g = Returned (m', c, g') /\
    selectionInLog m' g' /\
    vpHeight (viewport m')
    = match msg with
      | WindowSizeMsg _ Height => GoInt.sub Height 5
      | _ => vpHeight (viewport (updateWidgets msg m))
      end.
Proof.
  intros Hsel Hfuel.
  destruct (updateWidgets_fields msg m) as (Hm & Hs & Hc & Hsess).
  unfold Update; cbv zeta.
  remember (updateWidgets msg m) as m1 eqn:Hm1. clear Hm1. intros Hheight.
  assert (Hin : selectionInLog m1 g) by (unfold selectionInLog; by rewrite Hs).
  assert (Hvote : forall v, exists m' c g',
            voteSelected v m1 g = Returned (m', c, g') /\
            selectionInLog m' g' /\
            vpHeight (viewport m') = vpHeight (viewport m1)).
  { intros v. unfold voteSelected, selectionInLog in *.
    destruct (Z.ltb_spec (selectedMessage m1) (len (chatMessages g))); [|lia].
    destruct (index_in_range (chatMessages g) (selectedMessage m1) Hin)
      as [sm ->].
    pose proof (voteMessage_length (session m1) (UniqueID sm) v g) as Hlen.
    destruct (voteMessage (session m1) (UniqueID sm) v g) as [[e|] g1];
      simpl in Hlen; eexists _, _, _; (split; [reflexivity|]); simpl;
      (split; [lia|done]). }
  clear Hsel. unfold selectionInLog in Hin.
  destruct msg as [w h|k str| |e|].
  - returned. split; [lia|done].
  - destruct k.
    + returned. rewrite decrementUsers_log. split; [lia|done].
    + returned. rewrite decrementUsers_log. split; [lia|done].
    + simpl. destruct (negb (isSelectMode m1)); returned; (split; [lia|done]).
    + destruct (negb (isSelectMode m1)
                && negb (String.eqb (Value (textarea m1)) "")).
      * unfold GotoBottom. simpl.
        destruct (Z.ltb_spec (vpHeight (viewport m1)) 0); [lia|].
        returned. unfold len in *. rewrite length_app. simpl.
        split; [lia|done].
      * returned. split; [lia|done].
    + destruct (isSelectMode m1); [|returned; (split; [lia|done])].
      destruct (navigateUp_returns (chatMessages g) fuel (selectedMessage m1))
        as (sel' & -> & Hle & _); [done|unfold len in *; lia|].
      returned. split; [lia|done].
    + destruct (isSelectMode m1); [|returned; (split; [lia|done])].
      destruct (navigateDown_returns (chatMessages g) fuel (selectedMessage m1))
        as (sel' & -> & Hle & _); [done|unfold len in *; lia|].
      returned. split; [lia|done].
    + destruct (isSelectMode m1); [|returned; (split; [lia|done])].
      destruct (String.eqb str "u" || String.eqb str "U"); [apply Hvote|].
      destruct (String.eqb str "d" || String.eqb str "D"); [apply Hvote|].
      returned. split; [lia|done].
    + destruct (isSelectMode m1); returned; (split; [lia|done]).
  - unfold getMessages.
    destruct (negb (len (chatMessages g) =? lastMessageCount m1)).
    + unfold GotoBottom. simpl.
      destruct (Z.ltb_spec (vpHeight (viewport m1)) 0); [lia|].
      returned. split; [lia|done].
    + returned. split; [lia|done].
  - returned. split; [lia|done].
  - returned. split; [lia|done].
Qed.

(** X10. No index out of range, no endless loop: when the selection of a
    model is an index of the log and the height of its viewport, as the
    widget's own update leaves it, is not negative (and the model's bound on
    loop iterations is at least the length of the log), [Update] returns for
    every runtime message, and the selection it leaves is an index of the
    log it leaves.  The property survives whatever other connections do
    meanwhile, as long as the log does not shrink. *)
Theorem update_never_panics `{Externals} (fuel : nat) (now : string)
    (msg : Msg) (m : model) (g : Globals) :
  selectionInLog m g ->
  (length (chatMessages g) <= fuel)%nat ->
  0 <= vpHeight (viewport (updateWidgets msg m)) ->
  exists m' c g',
    Update fuel now msg m g = Returned (m', c, g') /\
    selectionInLog m' g' /\
    forall g2,
      (length (chatMessages g') <= length (chatMessages g2))%nat ->
      selectionInLog m' g2.
Proof.
  intros Hsel Hfuel Hheight.
  destruct (Update_returns fuel now msg m g Hsel Hfuel Hheight)
    as (m' & c & g' & Hup & Hsel' & _).
  exists m', c, g'. split; [done|]. split; [done|].
  intros g2 Hgrow. unfold selectionInLog, len in *. lia.
Qed.

Lemma update_never_panics_witness :
  exists m' c g',
    Update (H := plainExternals) 3 "t4" messagesUpdatedMsg (selecting 2)
           (mkGlobals [welcome; joined; hello] 1 ∅)
    = Returned (m', c, g') /\
    selectionInLog m' g' /\
    forall g2,
      (length (chatMessages g') <= length (chatMessages g2))%nat ->
      selectionInLog m' g2.
Proof.
  apply (update_never_panics (H := plainExternals) 3 "t4" messagesUpdatedMsg
           (selecting 2) (mkGlobals [welcome; joined; hello] 1 ∅)).
  - vm_compute. split; [discriminate|reflexivity].
  - simpl. lia.
  - vm_compute. discriminate.
Defined.

Lemma run_returns `{Externals} fuel events :
  keepsHeight ->
  Forall (fun e => fitsViewport (snd e)) events ->
  forall m g,
    selectionInLog m g ->
    0 <= vpHeight (viewport m) ->
    (length (chatMessages g) + length events <= fuel)%nat ->
    exists m' g',
      run fuel events m g = Returned (m', g') /\
      selectionInLog m' g'.
Proof.
  intros Hkeep Hfit.
  induction Hfit as [|[now msg] events Hmsg _ IH];
    intros m g Hsel Hheight Hfuel; simpl.
  - by exists m, g.
  - simpl in Hfuel, Hmsg.
    assert (Hwidget : vpHeight (viewport (updateWidgets msg m))
                      = vpHeight (viewport m)).
    { unfold updateWidgets. simpl. rewrite Hkeep.
      by destruct (negb (isSelectMode m)). }
    assert (Hfuel0 : (length (chatMessages g) <= fuel)%nat) by lia.
    rewrite <- Hwidget in Hheight.
    destruct (Update_returns fuel now msg m g Hsel Hfuel0 Hheight)
      as (m1 & c & g1 & Hup & Hsel1 & Hh1).
    rewrite Hup.
    destruct (Update_log_prefix _ _ _ _ _ _ _ _ Hup) as [_ Hlen].
    assert (Hheight1 : 0 <= vpHeight (viewport m1)).
    { rewrite Hh1. destruct msg; try lia.
      unfold fitsViewport in Hmsg. unfold GoInt.sub. rewrite GoIntFacts.wrap_in_range;
        unfold GoInt.in_range, GoInt.min_int, GoInt.max_int in *; lia. }
    destruct (IH m1 g1 Hsel1 Hheight1 ltac:(lia)) as (m' & g' & Hrun & Hsel').
    destruct c; [by exists m1, g1|by exists m', g'|by exists m', g'].
Qed.

(** X11. A connection whose window always has at least 5 rows never
    crashes its handler.  With a viewport widget that never resizes itself,
    a pty of 5 rows or more and window size messages of 5 rows or more,
    [teaHandler] returns, in whatever state the server was, and every
    sequence of runtime messages is then handled to its end (or to the quit
    key) without a panic, given a bound on loop iterations of at least the
    length of the log plus the number of messages. *)
Theorem session_always_returns `{Externals} (fuel : nat)
    (events : list (string * Msg)) (now : string) (s : Session) (w h : Z)
    (t : string) (g : Globals) :
  keepsHeight ->
  5 <= h <= GoInt.max_int ->
  Forall (fun e => fitsViewport (snd e)) events ->
  (S (length (chatMessages g)) + length events <= fuel)%nat ->
  exists m0 g0 m' g',
    teaHandler now s w h t g = Returned (m0, g0) /\
    run fuel events m0 g0 = Returned (m', g') /\
    selectionInLog m' g'.
Proof.
  intros Hkeep Hh Hfit Hfuel.
  assert (Hsub : GoInt.sub h 5 = h - 5).
  { unfold GoInt.sub. apply GoIntFacts.wrap_in_range.
    unfold GoInt.in_range, GoInt.min_int, GoInt.max_int in *. lia. }
  unfold teaHandler, GotoBottom. simpl. rewrite Hsub.
  destruct (Z.ltb_spec (h - 5) 0); [lia|].
  eexists _, _.
  edestruct (run_returns fuel events Hkeep Hfit) as (m' & g' & Hrun & Hsel');
    [| |
     |exists m', g'; split; [reflexivity|]; split; [exact Hrun|exact Hsel']].
  - unfold selectionInLog, len. simpl. rewrite length_app. simpl. lia.
  - simpl. lia.
  - simpl. rewrite length_app. simpl. lia.
Qed.

Lemma session_always_returns_witness :
  exists m0 g0 m' g',
    teaHandler (H := plainExternals) "t1" alice 80 24 "xterm" emptyGlobals
    = Returned (m0, g0) /\
    run (H := plainExternals) 5
        [("t2", WindowSizeMsg 80 5); ("t3", KeyMsg KeyEnter "enter");
         ("t4", messagesUpdatedMsg); ("t5", KeyMsg KeyRunes "d")]
        m0 g0
    = Returned (m', g') /\
    selectionInLog m' g'.
Proof.
  apply (session_always_returns (H := plainExternals) 5
           [("t2", WindowSizeMsg 80 5); ("t3", KeyMsg KeyEnter "enter");
            ("t4", messagesUpdatedMsg); ("t5", KeyMsg KeyRunes "d")]
           "t1" alice 80 24 "xterm" emptyGlobals).
  - intros msg v. reflexivity.
  - vm_compute. split; discriminate.
  - repeat constructor; vm_compute; discriminate.
  - simpl. lia.
Defined.

(** ** Counters and vote records *)

Lemma wrap_wrap_add x y : GoInt.wrap (GoInt.wrap x + y) = GoInt.wrap (x + y).
Proof.
  unfold GoInt.wrap.
  replace ((x + 2 ^ 63) mod 2 ^ 64 - 2 ^ 63 + y + 2 ^ 63)
    with ((x + 2 ^ 63) mod 2 ^ 64 + y) by lia.
  rewrite Zplus_mod_idemp_l. f_equal. f_equal. lia.
Qed.

Lemma wrap_wrap x : GoInt.wrap (GoInt.wrap x) = GoInt.wrap x.
Proof.
  rewrite <- (Z.add_0_r (GoInt.wrap x)) at 1.
  by rewrite wrap_wrap_add, Z.add_0_r.
Qed.

Lemma counts_bounds p messageID inner : 0 <= counts p messageID inner <= 1.
Proof. unfold counts. destruct (p _); lia. Qed.

Lemma counts_empty p messageID : p 0 = false -> counts p messageID ∅ = 0.
Proof. unfold counts. rewrite lookup_empty. simpl. by intros ->. Qed.

Lemma tally_empty p messageID : tally p messageID ∅ = 0.
Proof. unfold tally. by rewrite map_fold_empty. Qed.

Lemma tally_insert_None p messageID u inner votes :
  votes !! u = None ->
  tally p messageID (<[u := inner]> votes)
  = counts p messageID inner + tally p messageID votes.
Proof.
  intros Hnone. unfold tally. rewrite map_fold_insert_L; [done| |done].
  intros. lia.
Qed.

Lemma tally_insert p messageID u inner votes :
  tally p messageID (<[u := inner]> votes)
  = tally p messageID votes
    - match votes !! u with
      | Some old => counts p messageID old
      | None => 0
      end
    + counts p messageID inner.
Proof.
  destruct (votes !! u) as [old|] eqn:Hu.
  - rewrite <- (insert_delete_id votes u old) at 2 by done.
    rewrite <- insert_delete_eq.
    rewrite !tally_insert_None by apply lookup_delete_eq. lia.
  - rewrite tally_insert_None by done. lia.
Qed.

Lemma tally_bounds p messageID votes :
  0 <= tally p messageID votes <= Z.of_nat (size votes).
Proof.
  induction votes as [|u inner votes Hnone IH] using map_ind.
  - rewrite tally_empty, map_size_empty. lia.
  - rewrite tally_insert_None, map_size_insert_None by done.
    pose proof (counts_bounds p messageID inner). lia.
Qed.

Lemma tally_zero p messageID votes :
  p 0 = false ->
  (forall u inner, votes !! u = Some inner -> inner !! messageID = None) ->
  tally p messageID votes = 0.
Proof.
  intros Hp. induction votes as [|u inner votes Hnone IH] using map_ind;
    intros Hall.
  - apply tally_empty.
  - rewrite tally_insert_None by done.
    rewrite IH.
    + unfold counts. rewrite (Hall u inner) by apply lookup_insert_eq.
      simpl. rewrite Hp. lia.
    + intros u' inner' Hu'. apply (Hall u').
      rewrite lookup_insert_ne; [done|]. intros ->. congruence.
Qed.

Lemma tallied_start `{Externals} now : tallied (startGlobals now).
Proof.
  split.
  - intros [|i] msg; simpl; [|done]. intros [= <-]. simpl.
    by rewrite !tally_empty.
  - intros messageID username votes _. simpl. by rewrite lookup_empty.
Qed.

Lemma tallied_addMessage `{Externals} now session message system g :
  tallied g -> tallied (addMessage now session message system g).
Proof.
  intros [Hcount Hrec].
  destruct (addMessage_appends now session message system g)
    as (new & Hlog & _ & _ & Hup & Hdown & _).
  split.
  - intros i msg. rewrite Hlog. change (userVotes (addMessage _ _ _ _ g))
      with (userVotes g).
    destruct (Nat.lt_ge_cases i (length (chatMessages g))) as [Hlt|Hge].
    + rewrite lookup_app_l by done. rewrite take_app_le by lia.
      apply Hcount.
    + rewrite lookup_app_r by done.
      destruct (i - length (chatMessages g))%nat as [|k] eqn:Hk; [|done].
      simpl. intros [= <-].
      assert (i = length (chatMessages g)) as -> by lia.
      rewrite take_app_length.
      destruct (bool_decide (UniqueID new ∈ UniqueID <$> chatMessages g))
        eqn:Hin; [done|].
      apply bool_decide_eq_false in Hin.
      rewrite !tally_zero; [done|done| |done|]; intros u inner Hu;
        by apply (Hrec _ u).
  - intros messageID username votes Hout. apply Hrec.
    intros Hin. apply Hout. rewrite Hlog, fmap_app.
    apply elem_of_app. by left.
Qed.

Lemma tallied_new_voter u g :
  tallied g ->
  tallied (setUserVotes
             match userVotes g !! u with
             | Some _ => userVotes g
             | None => <[u := ∅]> (userVotes g)
             end g).
Proof.
  intros Ht. destruct (userVotes g !! u) eqn:Hu;
    [by rewrite setUserVotes_same|].
  destruct Ht as [Hcount Hrec]. split.
  - intros i msg Hi. simpl in *.
    rewrite !tally_insert_None, !counts_empty by done.
    by apply Hcount.
  - intros messageID username votes Hout. simpl in *.
    destruct (decide (u = username)) as [<-|Hne].
    + rewrite lookup_insert_eq. by intros [= <-].
    + rewrite lookup_insert_ne by done. by apply Hrec.
Qed.

Lemma wrap_wrap_sub x y : GoInt.wrap (GoInt.wrap x - y) = GoInt.wrap (x - y).
Proof. rewrite <- !Z.add_opp_r. apply wrap_wrap_add. Qed.

(** The counters of the voted message, in terms of what they stood for. *)
Lemma vote_counters voteType prev msg tU tD :
  voteType <> 0 ->
  Upvotes msg = GoInt.wrap tU ->
  Downvotes msg = GoInt.wrap tD ->
  let msg' := addNewVote voteType (removePreviousVote prev msg) in
  Upvotes msg'
  = GoInt.wrap (tU - (if isUp (default 0 prev) then 1 else 0)
                   + (if isUp voteType then 1 else 0)) /\
  Downvotes msg'
  = GoInt.wrap (tD - (if isDown (default 0 prev) then 1 else 0)
                   + (if isDown voteType then 1 else 0)).
Proof.
  intros Hv HU HD. unfold addNewVote, removePreviousVote, isUp, isDown.
  destruct prev as [p|]; simpl default;
    repeat match goal with
           | |- context [?a <? ?b] => destruct (Z.ltb_spec a b)
           end;
    simpl; rewrite ?HU, ?HD; unfold GoInt.incr, GoInt.decr;
    rewrite ?wrap_wrap_sub, ?wrap_wrap_add;
    try lia; split; f_equal; lia.
Qed.

Lemma counts_insert p messageID i v inner :
  counts p i (<[messageID := v]> inner)
  = if decide (i = messageID) then (if p v then 1 else 0) else counts p i inner.
Proof.
  unfold counts. destruct (decide (i = messageID)) as [->|Hne].
  - by rewrite lookup_insert_eq.
  - by rewrite lookup_insert_ne.
Qed.

(** The tallies after an accepted vote. *)
Lemma tally_vote p i u messageID v votes :
  p 0 = false ->
  tally p i (<[u := <[messageID := v]> (default ∅ (votes !! u))]> votes)
  = if decide (i = messageID)
    then tally p i votes
         - (if p (default 0 (default ∅ (votes !! u) !! messageID))
            then 1 else 0)
         + (if p v then 1 else 0)
    else tally p i votes.
Proof.
  intros Hp. rewrite tally_insert, counts_insert.
  assert (Hold : match votes !! u with
                 | Some old => counts p i old
                 | None => 0
                 end = counts p i (default ∅ (votes !! u))).
  { destruct (votes !! u); [done|]. simpl. by rewrite counts_empty. }
  rewrite Hold. destruct (decide (i = messageID)) as [->|Hne]; [done|lia].
Qed.

Lemma tallied_voteMessage s messageID voteType g :
  voteType <> 0 ->
  tallied g ->
  tallied (snd (voteMessage s messageID voteType g)).
Proof.
  intros Hv Ht.
  destruct (voteMessage_cases s messageID voteType g)
    as [[_ ->] | [(_ & _ & ->) | (_ & pre & m1 & post & Hg & Hpre & Hid & ->)]];
    simpl; [by apply tallied_new_voter|by apply tallied_new_voter|].
  destruct Ht as [Hcount Hrec].
  set (m1' := addNewVote voteType
                (removePreviousVote (recorded g (User s) messageID) m1)).
  assert (Hid' : UniqueID m1' = UniqueID m1).
  { pose proof (fixedFields_vote voteType (recorded g (User s) messageID) m1)
      as Hf. unfold fixedFields in Hf. by injection Hf. }
  assert (Hids : UniqueID <$> (pre ++ m1' :: post)%list
                 = UniqueID <$> chatMessages g).
  { by rewrite Hg, !fmap_app, !fmap_cons, Hid'. }
  assert (Hprev : default ∅ (userVotes g !! User s) !! messageID
                  = recorded g (User s) messageID).
  { unfold recorded. by destruct (userVotes g !! User s). }
  assert (Hnotin : messageID ∉ UniqueID <$> pre).
  { intros (x & Hx & Hin)%list_elem_of_fmap.
    rewrite Forall_forall in Hpre. by apply (Hpre x). }
  split; simpl.
  - intros i msg Hi.
    rewrite fmap_take, Hids, <- fmap_take.
    destruct (decide (i = length pre)) as [->|Hne].
    + rewrite list_lookup_middle in Hi by done. injection Hi as <-.
      specialize (Hcount (length pre) m1).
      rewrite Hg, list_lookup_middle in Hcount by done.
      specialize (Hcount eq_refl).
      rewrite Hg, take_app_length, Hid' in *. rewrite Hid in *.
      rewrite bool_decide_eq_false_2 in * by done.
      destruct Hcount as [HU HD].
      rewrite !tally_vote by done.
      rewrite !decide_True by done. rewrite Hprev.
      apply (vote_counters voteType _ m1 _ _ Hv HU HD).
    + assert (Hold : chatMessages g !! i = Some msg).
      { rewrite Hg. destruct (Nat.lt_total i (length pre)) as [Hlt|[Heq|Hgt]];
          [|done|].
        - by rewrite lookup_app_l in * by done.
        - rewrite lookup_app_r in * by lia.
          by destruct (i - length pre)%nat as [|k] eqn:Hk; [lia|]. }
      specialize (Hcount i msg Hold).
      destruct (bool_decide
                  (UniqueID msg ∈ UniqueID <$> take i (chatMessages g)))
        eqn:Hfirst; [done|].
      apply bool_decide_eq_false in Hfirst.
      assert (Hother : UniqueID msg <> messageID).
      { intros Heq. destruct (Nat.lt_total i (length pre)) as [Hlt|[?|Hgt]];
          [|done|].
        - rewrite Hg, lookup_app_l in Hold by done.
          rewrite Forall_lookup in Hpre. by apply (Hpre i msg).
        - apply Hfirst. rewrite Heq, <- Hid.
          apply list_elem_of_fmap_2, list_elem_of_lookup.
          exists (length pre). rewrite lookup_take_lt by done.
          rewrite Hg. by apply list_lookup_middle. }
      rewrite !tally_vote by done. by rewrite !decide_False by done.
  - intros i username votes Hout.
    rewrite Hids in Hout.
    assert (Hne : i <> messageID).
    { intros ->. apply Hout. rewrite Hg, fmap_app, fmap_cons, Hid.
      apply elem_of_app. right. apply elem_of_cons. by left. }
    destruct (decide (User s = username)) as [<-|Hu].
    + rewrite lookup_insert_eq. intros [= <-].
      rewrite lookup_insert_ne by done.
      destruct (userVotes g !! User s) as [inner|] eqn:Hinner; simpl.
      * by apply (Hrec i (User s)).
      * apply lookup_empty.
    + rewrite lookup_insert_ne by done. by apply Hrec.
Qed.

Lemma tallied_same g g' :
  chatMessages g' = chatMessages g ->
  userVotes g' = userVotes g ->
  tallied g -> tallied g'.
Proof. unfold tallied. by intros -> ->. Qed.

Lemma reachable_tallied `{Externals} g : reachable g -> tallied g.
Proof.
  induction 1 as [now|now s g _ IH|fuel now msg m g m' c g' _ IH Hup].
  - apply tallied_start.
  - unfold teaHandlerWrites.
    eapply tallied_same; [| |by apply tallied_addMessage]; done.
  - destruct (Update_shared_state _ _ _ _ _ _ _ _ Hup)
      as [->|[[-> _]|[(_ & str & text & _ & _ & ->)
                     |(_ & str & d & sm & _ & _ & ->)]]].
    + done.
    + eapply tallied_same; [apply decrementUsers_log| |done].
      unfold decrementUsers. by destruct (0 <? onlineUsers g).
    + by apply tallied_addMessage.
    + apply tallied_voteMessage; [by destruct d|done].
Qed.

(** X12. Counters always agree with the vote records.  In every state the
    server can reach, the first message of the log with a given id carries
    (modulo the width of [int]) the number of voters whose record for that id
    is an upvote, and the number whose record is a downvote; a later message
    with the same id carries zeros; nobody has a record for an id that is
    not in the log.  When the number of voters fits an [int] the counters
    are exactly those numbers, so none is negative and none exceeds the
    number of voters. *)
Theorem counters_match_records `{Externals} (g : Globals) :
  reachable g ->
  Z.of_nat (size (userVotes g)) <= GoInt.max_int ->
  tallied g /\
  forall (i : nat) (msg : Message),
    chatMessages g !! i = Some msg ->
    0 <= Upvotes msg <= Z.of_nat (size (userVotes g)) /\
    0 <= Downvotes msg <= Z.of_nat (size (userVotes g)) /\
    (UniqueID msg ∉ UniqueID <$> take i (chatMessages g) ->
     Upvotes msg = tally isUp (UniqueID msg) (userVotes g) /\
     Downvotes msg = tally isDown (UniqueID msg) (userVotes g)).
Proof.
  intros Hreach Hcap. pose proof (reachable_tallied g Hreach) as Ht.
  split; [done|]. intros i msg Hi.
  destruct Ht as [Hcount _]. specialize (Hcount i msg Hi).
  pose proof (tally_bounds isUp (UniqueID msg) (userVotes g)) as HbU.
  pose proof (tally_bounds isDown (UniqueID msg) (userVotes g)) as HbD.
  assert (Hmin : GoInt.min_int <= 0) by (unfold GoInt.min_int; lia).
  rewrite !GoIntFacts.wrap_in_range in Hcount
    by (unfold GoInt.in_range; lia).
  destruct (bool_decide
              (UniqueID msg ∈ UniqueID <$> take i (chatMessages g))) eqn:Hfirst.
  - apply bool_decide_eq_true in Hfirst. destruct Hcount as [-> ->].
    split; [lia|]. split; [lia|]. done.
  - destruct Hcount as [-> ->]. split; [lia|]. split; [lia|]. done.
Qed.

Lemma run_reachable `{Externals} fuel events : forall m g m' g',
  reachable g ->
  run fuel events m g = Returned (m', g') ->
  reachable g'.
Proof.
  induction events as [|[now msg] events IH]; intros m g m' g' Hreach; simpl.
  - by intros [= _ <-].
  - destruct (Update fuel now msg m g) as [[[m1 c] g1]| |] eqn:Hup;
      [|done|done].
    pose proof (reachable_update _ _ _ _ _ _ _ _ Hreach Hup) as Hreach1.
    destruct c; [by intros [= _ <-]|by apply IH|by apply IH].
Qed.

(** The sample session ends in a state with a vote: one message, one
    record. *)
Lemma sessionGlobals_voted :
  chatMessages sessionGlobals
  = [welcome;
     mkMessage "Anonymous" "t1" "N/A"
       "Silly goober alice has made the mistake of joining the cult"
       0 0 "" true;
     posted] /\
  recorded sessionGlobals "alice" (UniqueID posted) = Some 1.
Proof. vm_compute. by split. Qed.

Lemma sessionGlobals_reachable : reachable (H := plainExternals) sessionGlobals.
Proof.
  unfold sessionGlobals.
  destruct (run (H := plainExternals) 3
              [("t2", KeyMsg KeyEnter "enter"); ("t3", KeyMsg KeyTab "tab");
               ("t4", KeyMsg KeyRunes "u")]
              (typing "hello")
              (teaHandlerWrites (H := plainExternals) "t1" alice
                 (startGlobals (H := plainExternals) "t0")))
    as [[m' g']| |] eqn:Hrun.
  - eapply run_reachable; [|exact Hrun].
    apply reachable_connect, reachable_main.
  - vm_compute in Hrun. discriminate.
  - vm_compute in Hrun. discriminate.
Qed.

Lemma counters_match_records_witness :
  tallied sessionGlobals /\
  forall (i : nat) (msg : Message),
    chatMessages sessionGlobals !! i = Some msg ->
    0 <= Upvotes msg <= Z.of_nat (size (userVotes sessionGlobals)) /\
    0 <= Downvotes msg <= Z.of_nat (size (userVotes sessionGlobals)) /\
    (UniqueID msg ∉ UniqueID <$> take i (chatMessages sessionGlobals) ->
     Upvotes msg = tally isUp (UniqueID msg) (userVotes sessionGlobals) /\
     Downvotes msg = tally isDown (UniqueID msg) (userVotes sessionGlobals)).
Proof.
  apply (counters_match_records (H := plainExternals) sessionGlobals).
  - exact sessionGlobals_reachable.
  - vm_compute. discriminate.
Defined.

(** ** The shape of the log *)

Lemma asAdded_fixedFields `{Externals} a b :
  fixedFields a = fixedFields b -> asAdded a -> asAdded b.
Proof.
  unfold fixedFields, asAdded. intros [= Hu Ht Hp Hc Hi Hs].
  by rewrite Hu, Ht, Hp, Hc, Hi, Hs.
Qed.

Lemma Forall_fixedFields (P : Message -> Prop) :
  (forall a b, fixedFields a = fixedFields b -> P a -> P b) ->
  forall l1 l2,
    fixedFields <$> l1 = fixedFields <$> l2 ->
    Forall P l1 -> Forall P l2.
Proof.
  intros HP. induction l1 as [|a l1 IH]; intros [|b l2]; try done.
  rewrite !fmap_cons. intros Heq Hall.
  apply Forall_cons in Hall as [Ha Hl1]. constructor.
  - apply (HP a b); [|done]. apply (f_equal head) in Heq.
    simpl in Heq. congruence.
  - apply IH; [|done]. by apply (f_equal tail) in Heq.
Qed.

Lemma idsAssigned_addMessage `{Externals} now session message system g :
  (system = true -> session = None) ->
  idsAssigned g ->
  idsAssigned (addMessage now session message system g).
Proof.
  intros Hsys Hids. unfold idsAssigned, addMessage in *. simpl.
  apply Forall_app. split; [done|]. constructor; [|done].
  unfold asAdded. destruct system; simpl; [by rewrite (Hsys eq_refl)|done].
Qed.

Lemma reachable_idsAssigned `{Externals} g : reachable g -> idsAssigned g.
Proof.
  induction 1 as [now|now s g _ IH|fuel now msg m g m' c g' _ IH Hup].
  - apply idsAssigned_addMessage; [done|]. by constructor.
  - unfold teaHandlerWrites.
    by apply (idsAssigned_addMessage now None _ true g).
  - destruct (Update_shared_state _ _ _ _ _ _ _ _ Hup)
      as [->|[[-> _]|[(_ & str & text & _ & _ & ->)
                     |(_ & str & d & sm & _ & _ & ->)]]].
    + done.
    + unfold idsAssigned. by rewrite decrementUsers_log.
    + by apply idsAssigned_addMessage.
    + destruct (voteMessage_log (session m) (UniqueID sm) (voteTypeOf d) g)
        as [Hfix _].
      eapply Forall_fixedFields; [apply @asAdded_fixedFields| |exact IH].
      done.
Qed.

Lemma reachable_welcome `{Externals} g :
  reachable g ->
  exists first rest,
    chatMessages g = first :: rest /\
    System first = true /\
    Content first = "Welcome to letsgosky.social".
Proof.
  assert (Hkeep : forall l l' first rest,
            l = first :: rest ->
            fixedFields <$> l `prefix_of` fixedFields <$> l' ->
            exists first' rest',
              l' = first' :: rest' /\ fixedFields first' = fixedFields first).
  { intros l l' first rest -> [k Hk]. destruct l' as [|first' rest'];
      [done|]. rewrite !fmap_cons in Hk. apply (f_equal head) in Hk.
    exists first', rest'. split; [done|]. simpl in Hk.
    unfold fixedFields in *. congruence. }
  assert (Hhead : forall a b,
            fixedFields a = fixedFields b ->
            System b = true /\ Content b = "Welcome to letsgosky.social" ->
            System a = true /\ Content a = "Welcome to letsgosky.social").
  { unfold fixedFields. intros a b [= _ _ _ -> _ ->]. done. }
  induction 1 as [now|now s g _ IH|fuel now msg m g m' c g' _ IH Hup].
  - by eexists _, _.
  - destruct IH as (first & rest & Hg & Hfirst).
    exists first, (rest ++ [mkMessage "Anonymous" now "N/A"
                              ("Silly goober " ++ User s ++
                               " has made the mistake of joining the cult")
                              0 0 "" true])%list.
    unfold teaHandlerWrites, addMessage. simpl. by rewrite Hg.
  - destruct IH as (first & rest & Hg & Hfirst).
    destruct (Update_log_prefix _ _ _ _ _ _ _ _ Hup) as [Hpre _].
    destruct (Hkeep _ _ _ _ Hg Hpre) as (first' & rest' & Hg' & Hf).
    exists first', rest'. split; [done|]. by apply (Hhead _ first).
Qed.

(** X13. In every state the server can reach the log is not empty and
    starts with the welcome line, and every message is as [addMessage] made
    it: a system message is signed "Anonymous" with key "N/A" and has the
    empty id, a user message has the digest of its own user name, time stamp
    and content as id.  No vote and no later message changes that. *)
Theorem reachable_log_shape `{Externals} (g : Globals) :
  reachable g ->
  idsAssigned g /\
  exists first rest,
    chatMessages g = first :: rest /\
    System first = true /\
    Content first = "Welcome to letsgosky.social".
Proof.
  intros Hreach. split.
  - by apply reachable_idsAssigned.
  - by apply reachable_welcome.
Qed.

Lemma reachable_log_shape_witness :
  idsAssigned (H := plainExternals) sessionGlobals /\
  exists first rest,
    chatMessages sessionGlobals = first :: rest /\
    System first = true /\
    Content first = "Welcome to letsgosky.social".
Proof.
  apply (reachable_log_shape (H := plainExternals)).
  exact sessionGlobals_reachable.
Defined.

(** X14. With a digest that is never the empty string (as a hexadecimal
    SHA-256 digest is), votes on user messages stay away from system
    messages: in every reachable state, a call of [voteMessage] with the id
    of a message that is not a system message leaves every system message
    of the log exactly as it is. *)
Theorem vote_on_user_message_spares_system `{Externals} (g : Globals)
    (s : Session) (voteType : Z) (target : Message) (i : nat)
    (msg : Message) :
  (forall x, sha256hex x <> "") ->
  reachable g ->
  target ∈ chatMessages g ->
  System target = false ->
  chatMessages g !! i = Some msg ->
  System msg = true ->
  chatMessages (snd (voteMessage s (UniqueID target) voteType g)) !! i
  = Some msg.
Proof.
  intros Hhash Hreach Htarget Huser Hi Hsys.
  pose proof (reachable_idsAssigned g Hreach) as Hids.
  unfold idsAssigned in Hids. rewrite Forall_forall in Hids.
  pose proof (Hids target Htarget) as Ht.
  pose proof (Hids msg (list_elem_of_lookup_2 _ _ _ Hi)) as Hm.
  unfold asAdded in Ht, Hm. rewrite Huser in Ht. rewrite Hsys in Hm.
  destruct Hm as (_ & _ & Hempty).
  destruct (voteMessage_log s (UniqueID target) voteType g) as [_ Hsame].
  apply Hsame; [done|]. left. rewrite Hempty, Ht. intros Heq.
  by apply (Hhash (Username target ++ Timestamp target ++ Content target)).
Qed.

Lemma vote_on_user_message_spares_system_witness :
  chatMessages (snd (voteMessage alice (UniqueID posted) (-1) sessionGlobals))
    !! 0%nat
  = Some welcome.
Proof.
  apply (vote_on_user_message_spares_system (H := plainExternals)
           sessionGlobals alice (-1) posted 0 welcome).
  - intros x. simpl. discriminate.
  - exact sessionGlobals_reachable.
  - vm_compute. do 2 apply list_elem_of_further. apply list_elem_of_here.
  - reflexivity.
  - reflexivity.
  - reflexivity.
Defined.

(** ** Rendering *)

(** X15. What [formatMessages] renders: in input mode one entry for every
    message of the copy it is given, in selection mode one entry for every
    message that is not a system message, so system messages are hidden
    while selecting. *)
Theorem formatMessages_entries `{Externals} (m : model) (i : Z)
    (messages : list Message) :
  length (formatLoop m i messages) = rendered (isSelectMode m) messages.
Proof.
  unfold rendered. revert i.
  induction messages as [|msg messages IH]; intros i; simpl;
    [by destruct (isSelectMode m)|].
  specialize (IH (i + 1)).
  destruct (isSelectMode m), (System msg); simpl; by rewrite ?IH.
Qed.

(** ** Refresh ticks and presence, composed *)

(** X16. Connecting and quitting, as a round trip.  For a pty of 5 rows or
    more [teaHandler] returns, and when the connection is then left with the
    escape key (or ctrl-c) the presence count is where it was, provided the
    count was non-negative and below the largest [int]; the join notice stays
    in the log, nothing is logged on leaving, and the vote records are
    untouched. *)
Theorem connect_then_quit `{Externals} (fuel : nat) (now now' str : string)
    (s : Session) (w h : Z) (t : string) (k : KeyType) (g : Globals) :
  0 <= onlineUsers g < GoInt.max_int ->
  5 <= h <= GoInt.max_int ->
  k = KeyEsc \/ k = KeyCtrlC ->
  exists m0 g0 m' g' notice,
    teaHandler now s w h t g = Returned (m0, g0) /\
    Update fuel now' (KeyMsg k str) m0 g0 = Returned (m', Quit, g') /\
    onlineUsers g' = onlineUsers g /\
    chatMessages g' = (chatMessages g ++ [notice])%list /\
    System notice = true /\
    userVotes g' = userVotes g.
Proof.
  intros Hcount Hh Hk.
  assert (Hsub : GoInt.sub h 5 = h - 5).
  { unfold GoInt.sub. apply GoIntFacts.wrap_in_range.
    unfold GoInt.in_range, GoInt.min_int, GoInt.max_int in *. lia. }
  assert (Hinc : onlineUsers (teaHandlerWrites now s g) = onlineUsers g + 1).
  { unfold teaHandlerWrites. simpl. apply GoIntFacts.incr_exact.
    unfold GoInt.min_int. lia. }
  assert (Hdec : onlineUsers (decrementUsers (teaHandlerWrites now s g))
                 = onlineUsers g).
  { rewrite decrementUsers_positive; lia. }
  assert (Hlog : exists notice,
            chatMessages (teaHandlerWrites now s g)
            = (chatMessages g ++ [notice])%list /\ System notice = true).
  { unfold teaHandlerWrites, addMessage. simpl. by eexists. }
  destruct Hlog as (notice & Hlog & Hsys).
  unfold teaHandler, GotoBottom. simpl. rewrite Hsub.
  destruct (Z.ltb_spec (h - 5) 0); [lia|].
  eexists _, _, _, (decrementUsers (teaHandlerWrites now s g)), notice.
  split; [reflexivity|].
  split; [by destruct Hk as [-> | ->]|]. split; [done|].
  split; [by rewrite decrementUsers_log|]. split; [done|].
  unfold decrementUsers. by destruct (0 <? _).
Qed.

Lemma connect_then_quit_witness :
  exists m0 g0 m' g' notice,
    teaHandler (H := plainExternals) "t1" alice 80 24 "xterm" upvotedGlobals
    = Returned (m0, g0) /\
    Update (H := plainExternals) 0 "t9" (KeyMsg KeyEsc "esc") m0 g0
    = Returned (m', Quit, g') /\
    onlineUsers g' = onlineUsers upvotedGlobals /\
    chatMessages g' = (chatMessages upvotedGlobals ++ [notice])%list /\
    System notice = true /\
    userVotes g' = userVotes upvotedGlobals.
Proof.
  apply (connect_then_quit (H := plainExternals) 0 "t1" "t9" "esc" alice 80 24
           "xterm" KeyEsc upvotedGlobals).
  - vm_compute. split; [discriminate|reflexivity].
  - vm_compute. split; discriminate.
  - by left.
Defined.

(** ** Key presses, composed *)

Lemma Update_navigation_count `{Externals} fuel now k str m g m' c g' :
  k = KeyUp \/ k = KeyDown ->
  Update fuel now (KeyMsg k str) m g = Returned (m', c, g') ->
  lastMessageCount m' = lastMessageCount m.
Proof.
  destruct (updateWidgets_fields (KeyMsg k str) m) as (Hm & Hs & Hc & _).
  intros [-> | ->]; unfold Update; cbv zeta.
  - destruct (isSelectMode (updateWidgets (KeyMsg KeyUp str) m));
      [|by intros [= <- _ _]].
    destruct (navigateUp fuel (chatMessages g) _); [|done|done].
    by intros [= <- _ _].
  - destruct (isSelectMode (updateWidgets (KeyMsg KeyDown str) m));
      [|by intros [= <- _ _]].
    destruct (navigateDown fuel (chatMessages g) _); [|done|done].
    by intros [= <- _ _].
Qed.

Lemma Update_tick `{Externals} fuel now m g :
  0 <= vpHeight (viewport (updateWidgets messagesUpdatedMsg m)) \/
  lastMessageCount m = len (chatMessages g) ->
  exists m',
    Update fuel now messagesUpdatedMsg m g = Returned (m', Batch, g) /\
    isSelectMode m' = isSelectMode m /\
    lastMessageCount m' = len (chatMessages g) /\
    (selectedMessage m' = selectedMessage m \/
     selectedMessage m' = len (chatMessages g) - 1) /\
    (lastMessageCount m = len (chatMessages g) ->
     selectedMessage m' = selectedMessage m).
Proof.
  intros Hok.
  destruct (updateWidgets_fields messagesUpdatedMsg m) as (Hm & Hs & Hc & _).
  unfold Update; cbv zeta. unfold getMessages.
  remember (updateWidgets messagesUpdatedMsg m) as m1 eqn:Hm1. clear Hm1.
  rewrite Hc.
  destruct (Z.eqb_spec (len (chatMessages g)) (lastMessageCount m))
    as [Hsame|Hdiff]; simpl.
  - eexists. split; [reflexivity|]. split; [done|]. split; [by rewrite Hc|].
    split; [by left|done].
  - destruct Hok as [Hheight|Heq]; [|by rewrite Heq in Hdiff].
    unfold GotoBottom. simpl.
    destruct (Z.ltb_spec (vpHeight (viewport m1)) 0); [lia|].
    eexists. split; [reflexivity|]. simpl. split; [done|]. split; [done|].
    split; [by right|]. intros Heq. by rewrite Heq in Hdiff.
Qed.

(** X17. A refresh tick does not undo navigation.  In selection mode, with
    the selection inside the log and a viewport height that is not negative:
    after a tick, a navigation key and another tick with no message arriving
    in between, the selection is where the navigation key left it (the first
    tick may re-anchor it, the second one never does). *)
Theorem navigation_survives_tick `{Externals} (fuel : nat)
    (n1 n2 n3 : string) (k : KeyType) (str : string) (m : model)
    (g : Globals) :
  isSelectMode m = true ->
  selectionInLog m g ->
  (length (chatMessages g) <= fuel)%nat ->
  0 <= vpHeight (viewport (updateWidgets messagesUpdatedMsg m)) ->
  k = KeyUp \/ k = KeyDown ->
  exists m2 m3,
    run fuel [(n1, messagesUpdatedMsg); (n2, KeyMsg k str)] m g
    = Returned (m2, g) /\
    run fuel [(n1, messagesUpdatedMsg); (n2, KeyMsg k str);
              (n3, messagesUpdatedMsg)] m g
    = Returned (m3, g) /\
    selectedMessage m3 = selectedMessage m2 /\
    restsAfter k (chatMessages g) (selectedMessage m2).
Proof.
  intros Hmode Hsel Hfuel Hheight Hk. unfold selectionInLog in Hsel.
  destruct (Update_tick fuel n1 m g (or_introl Hheight))
    as (m1 & Hup1 & Hm1 & Hc1 & Hs1 & _).
  assert (Hsel1 : 0 <= selectedMessage m1 < len (chatMessages g))
    by (destruct Hs1 as [-> | ->]; lia).
  destruct (Update_navigation fuel n2 k str m1 g)
    as (m2 & Hup2 & Hm2 & Hrest); [congruence|done|done|done|].
  pose proof (Update_navigation_count _ _ _ _ _ _ _ _ _ Hk Hup2) as Hc2.
  destruct (Update_tick fuel n3 m2 g) as (m3 & Hup3 & _ & _ & _ & Hs3);
    [right; congruence|].
  exists m2, m3. cbn [run]. rewrite Hup1, Hup2, Hup3.
  split; [done|]. split; [done|]. split; [|done].
  apply Hs3. congruence.
Qed.

Lemma navigation_survives_tick_witness :
  exists m2 m3,
    run (H := plainExternals) 4
        [("t5", messagesUpdatedMsg); ("t6", KeyMsg KeyUp "up")]
        (selecting 0) (mkGlobals [welcome; hello; joined; again] 1 ∅)
    = Returned (m2, mkGlobals [welcome; hello; joined; again] 1 ∅) /\
    run (H := plainExternals) 4
        [("t5", messagesUpdatedMsg); ("t6", KeyMsg KeyUp "up");
         ("t7", messagesUpdatedMsg)]
        (selecting 0) (mkGlobals [welcome; hello; joined; again] 1 ∅)
    = Returned (m3, mkGlobals [welcome; hello; joined; again] 1 ∅) /\
    selectedMessage m3 = selectedMessage m2 /\
    restsAfter KeyUp [welcome; hello; joined; again] (selectedMessage m2).
Proof.
  apply (navigation_survives_tick (H := plainExternals) 4 "t5" "t6" "t7"
           KeyUp "up" (selecting 0)
           (mkGlobals [welcome; hello; joined; again] 1 ∅)).
  - reflexivity.
  - vm_compute. split; [discriminate|reflexivity].
  - simpl. lia.
  - vm_compute. discriminate.
  - by left.
Defined.






(** ** The enter key and the window height *)



(** X20. A window under 5 rows crashes the handler.  Both [teaHandler] and
    [Update] give the viewport the window height minus 5, and [GotoBottom]
    panics on a negative height.  So [teaHandler] panics for a pty of fewer
    than 5 rows (after it has announced and counted the connection), and
    after a window size message of fewer than 5 rows the next refresh tick
    that finds the log changed panics, and so does the next enter key that
    finds text in the input. *)
Theorem small_window_panics `{Externals} (fuel : nat) (now n1 n2 : string)
    (s : Session) (w h : Z) (t str : string) (m : model) (g : Globals) :
  keepsHeight ->
  GoInt.min_int + 5 <= h < 5 ->
  teaHandler now s w h t g = Panicked /\
  (len (chatMessages g) <> lastMessageCount m ->
   run fuel [(n1, WindowSizeMsg w h); (n2, messagesUpdatedMsg)] m g
   = Panicked) /\
  (forall m1 c g1,
     Update fuel n1 (WindowSizeMsg w h) m g = Returned (m1, c, g1) ->
     isSelectMode m1 = false ->
     Value (textarea (updateWidgets (KeyMsg KeyEnter str) m1)) <> "" ->
     Update fuel n2 (KeyMsg KeyEnter str) m1 g1 = Panicked).
Proof.
  intros Hkeep Hh.
  assert (Hsub : GoInt.sub h 5 = h - 5).
  { unfold GoInt.sub. apply GoIntFacts.wrap_in_range.
    unfold GoInt.in_range, GoInt.min_int, GoInt.max_int in *. lia. }
  assert (Hresize : exists m1,
            Update fuel n1 (WindowSizeMsg w h) m g = Returned (m1, Batch, g) /\
            vpHeight (viewport m1) = h - 5 /\
            lastMessageCount m1 = lastMessageCount m).
  { destruct (updateWidgets_fields (WindowSizeMsg w h) m) as (_ & _ & Hc & _).
    unfold Update; cbv zeta. eexists. split; [reflexivity|]. simpl.
    by rewrite Hsub. }
  destruct Hresize as (m1 & Hup & Hheight & Hcount).
  assert (Hwidget : forall msg,
            vpHeight (viewport (updateWidgets msg m1)) = h - 5).
  { intros msg. unfold updateWidgets. simpl. rewrite Hkeep.
    by destruct (negb (isSelectMode m1)). }
  split; [|split].
  - unfold teaHandler, GotoBottom. simpl. rewrite Hsub.
    by destruct (Z.ltb_spec (h - 5) 0); [|lia].
  - intros Hdiff. cbn [run]. rewrite Hup. cbn [run].
    assert (Htick : Update fuel n2 messagesUpdatedMsg m1 g = Panicked);
      [|by rewrite Htick].
    destruct (updateWidgets_fields messagesUpdatedMsg m1) as (_ & _ & Hc & _).
    specialize (Hwidget messagesUpdatedMsg).
    unfold Update; cbv zeta. unfold getMessages.
    remember (updateWidgets messagesUpdatedMsg m1) as m2 eqn:Hm2. clear Hm2.
    rewrite Hc, Hcount.
    apply Z.eqb_neq in Hdiff. rewrite Hdiff. simpl.
    unfold GotoBottom. simpl. rewrite Hwidget.
    by destruct (Z.ltb_spec (h - 5) 0); [|lia].
  - intros m1' c g1. rewrite Hup. intros [= <- _ <-] Hmode Hfull.
    rewrite Update_KeyEnter_input by done. cbv zeta.
    apply String.eqb_neq in Hfull. rewrite Hfull, Hwidget.
    by destruct (Z.ltb_spec (h - 5) 0); [|lia].
Qed.

Lemma small_window_panics_witness :
  teaHandler (H := plainExternals) "t1" alice 80 4 "xterm"
             (startGlobals (H := plainExternals) "t0") = Panicked /\
  run (H := plainExternals) 2
      [("t2", WindowSizeMsg 80 3); ("t3", messagesUpdatedMsg)]
      inputModel (mkGlobals [welcome; joined] 1 ∅) = Panicked.
Proof.
  destruct (small_window_panics (H := plainExternals) 2 "t1" "t2" "t3" alice
              80 4 "xterm" "enter" inputModel
              (startGlobals (H := plainExternals) "t0"))
    as (Hconnect & _); [intros msg v; reflexivity|unfold GoInt.min_int; lia|].
  destruct (small_window_panics (H := plainExternals) 2 "t1" "t2" "t3" alice
              80 3 "xterm" "enter" inputModel
              (mkGlobals [welcome; joined] 1 ∅))
    as (_ & Htick & _); [intros msg v; reflexivity|unfold GoInt.min_int; lia|].
  split; [exact Hconnect|]. apply Htick. discriminate.
Defined.
